(** * Activity1.py: the mini expert system for student rules

    A shallow embedding of [src/activity/Activity1.py]: the [Student] record,
    the five rules of [ExpertSystem], [evaluate_student] and [log_results],
    followed by the properties the specification states about them.

    Python is dynamically typed: the annotations of [Student] are not
    enforced, and the only way a rule can fault is by being handed a field of
    the wrong type.  Field values are therefore modelled by a small universe
    of Python values: the declared types [float], [bool] and [str], and
    [None].  Python [int]s occur only as the literals [0] and [100] of the
    range checks.

    What Python and its library do is modelled as follows.
    - A [float] is an IEEE 754 binary64 number ([spec_float] with 53 bits of
      mantissa); [str(x)] is the shortest decimal that reads back as [x],
      and [format(x, '.1f')] rounds the exact value to one decimal.
    - A [str] is its UTF-8 text, a Rocq [string] of bytes.
    - An exception is a value of [pyexn]; a computation that may raise
      returns a [res], and statements thread a state that survives a raise.
    - [print] appends a line to the console and does not fail.
    - The file system is a map from paths to contents.  Whether [open()] or
      the write behind it fails is decided outside the program: each call of
      [log_results] receives that decision, and the clock reading, as an
      [io_env].
    - [csv.DictWriter] is used with its defaults: the excel dialect, minimal
      quoting, a carriage return and a line feed after each row. *)

From Stdlib Require Import ZArith Lia Ascii String Floats.SpecFloat.
From stdpp Require Import base option list strings pretty gmap.

Local Open Scope string_scope.
Local Open Scope Z_scope.

(** ** Python floats: IEEE 754 binary64 *)

Module Float.

Definition prec : Z := 53.
Definition emax : Z := 1024.

Abbreviation float := spec_float.

Definition valid (x : float) : bool := valid_binary prec emax x.

(** The float nearest to an integer (exact for the literals of the source). *)
Definition of_Z (z : Z) : float := binary_normalize prec emax z 0 false.

Definition of_bool (b : bool) : float := if b then of_Z 1 else S754_zero false.

Definition add : float → float → float := SFadd prec emax.
Definition leb : float → float → bool := SFleb.
Definition ltb : float → float → bool := SFltb.
Definition eqb : float → float → bool := SFeqb.

(** [x >= y] is [y <= x]; both are false as soon as one side is a NaN. *)
Definition geb (x y : float) : bool := leb y x.

(** Literals of the source. *)
Definition f0 : float := S754_zero false.
Definition f5 : float := Eval vm_compute in of_Z 5.
Definition f75 : float := Eval vm_compute in of_Z 75.
Definition f100 : float := Eval vm_compute in of_Z 100.

(** *** Exact values

    A finite float is a whole number of units of [2^-1074], the least
    positive float: [ulps x] is that number, and [units n] is the integer [n]
    in the same units. *)
Definition is_finite (x : float) : bool :=
  match x with
  | S754_zero _ | S754_finite _ _ _ => true
  | _ => false
  end.

Definition ulps (x : float) : Z :=
  match x with
  | S754_finite s m e => cond_Zopp s (Z.pos m * 2 ^ (e - emin prec emax))
  | _ => 0
  end.

Definition units (n : Z) : Z := n * 2 ^ 1074.

(** *** Decimal output

    Exact integer arithmetic on [m * 2^e]: [cmp_dec_bin c k b e] compares
    [c * 10^k] with [b * 2^e], and [floor_div_pow10 b e k] is the integer
    part of [b * 2^e / 10^k]. *)

Definition cmp_dec_bin (c k b e : Z) : comparison :=
  (c * 10 ^ Z.max k 0 * 2 ^ Z.max (- e) 0) ?= (b * 2 ^ Z.max e 0 * 10 ^ Z.max (- k) 0).

Definition floor_div_pow10 (b e k : Z) : Z :=
  (b * 2 ^ Z.max e 0 * 10 ^ Z.max (- k) 0) `div` (10 ^ Z.max k 0 * 2 ^ Z.max (- e) 0).

(** The least [p] from a safe start with [m * 2^e < 10^p]. *)
Fixpoint decimal_exponent_from (fuel : nat) (b e p : Z) : Z :=
  match fuel with
  | O => p
  | S fuel' =>
      match cmp_dec_bin 1 p b e with
      | Gt => p
      | _ => decimal_exponent_from fuel' b e (p + 1)
      end
  end.

Definition decimal_exponent (m : positive) (e : Z) : Z :=
  let bits := Z.pos (digits2_pos m) + e in
  decimal_exponent_from 8 (Z.pos m) e (((bits - 1) * 30103) `div` 100000 - 1).

(** Is [c * 10^k] inside the rounding interval [low * 2^E .. high * 2^E]?
    The end points belong to it when the mantissa is even. *)
Definition inside (incl : bool) (low high E c k : Z) : bool :=
  match cmp_dec_bin c k low E, cmp_dec_bin c k high E with
  | Gt, Lt => true
  | Eq, Lt | Gt, Eq => incl
  | _, _ => false
  end.

(** [repr] of a float is the shortest decimal that reads back as the same
    float, and the nearest one among those: try 1, 2, ... 17 digits. *)
Fixpoint shortest_from (fuel : nat) (m : positive) (e p n : Z) : Z * Z :=
  let k := p - n in
  let lo := floor_div_pow10 (Z.pos m) e k in
  let hi := lo + 1 in
  match fuel with
  | O => (lo, k)
  | S fuel' =>
      let E := e - 2 in
      let high := 4 * Z.pos m + 2 in
      let low := if (Z.pos m =? 2 ^ (prec - 1)) && (emin prec emax <? e)
                 then 4 * Z.pos m - 1 else 4 * Z.pos m - 2 in
      let incl := Z.even (Z.pos m) in
      match inside incl low high E lo k, inside incl low high E hi k with
      | true, false => (lo, k)
      | false, true => (hi, k)
      | true, true =>
          match cmp_dec_bin (lo + hi) k (8 * Z.pos m) E with
          | Gt => (lo, k)
          | Lt => (hi, k)
          | Eq => if Z.even lo then (lo, k) else (hi, k)
          end
      | false, false => shortest_from fuel' m e p (n + 1)
      end
  end.

Fixpoint strip_zeros (fuel : nat) (c k : Z) : Z * Z :=
  match fuel with
  | O => (c, k)
  | S fuel' =>
      if (c `mod` 10 =? 0) && (0 <? c)
      then strip_zeros fuel' (c `div` 10) (k + 1) else (c, k)
  end.

(** The digits and the position of the decimal point: the value is
    [0.d1d2...dn * 10^decpt]. *)
Definition shortest_digits (m : positive) (e : Z) : string * Z :=
  let '(c, k) := shortest_from 17 m e (decimal_exponent m e) 1 in
  let '(c, k) := strip_zeros 400 c k in
  let ds := pretty c in
  (ds, k + Z.of_nat (String.length ds)).

Fixpoint zeros (n : nat) : string :=
  match n with O => "" | S n' => "0" +:+ zeros n' end.

Definition take_s (n : nat) (s : string) : string := String.substring 0 n s.
Definition drop_s (n : nat) (s : string) : string :=
  String.substring n (String.length s - n) s.

Definition repr_finite (m : positive) (e : Z) : string :=
  let '(ds, decpt) := shortest_digits m e in
  let nd := Z.of_nat (String.length ds) in
  if (decpt <=? -4) || (16 <? decpt) then
    let x := decpt - 1 in
    take_s 1 ds +:+ (if 1 <? nd then "." +:+ drop_s 1 ds else "")
      +:+ "e" +:+ (if x <? 0 then "-" else "+")
      +:+ (if Z.abs x <? 10 then "0" else "") +:+ pretty (Z.abs x)
  else if decpt <=? 0 then "0." +:+ zeros (Z.to_nat (- decpt)) +:+ ds
  else if nd <=? decpt then ds +:+ zeros (Z.to_nat (decpt - nd)) +:+ ".0"
  else take_s (Z.to_nat decpt) ds +:+ "." +:+ drop_s (Z.to_nat decpt) ds.

(** [str(x)] and [repr(x)] of a float [x]. *)
Definition repr (x : float) : string :=
  match x with
  | S754_nan => "nan"
  | S754_infinity s => if s then "-inf" else "inf"
  | S754_zero s => if s then "-0.0" else "0.0"
  | S754_finite s m e => (if s then "-" else "") +:+ repr_finite m e
  end.

Definition round_half_even (num den : Z) : Z :=
  let q := num `div` den in
  match (2 * (num `mod` den)) ?= den with
  | Lt => q
  | Gt => q + 1
  | Eq => if Z.even q then q else q + 1
  end.

(** [format(x, '.1f')]: one digit after the point, the exact value rounded
    to nearest, ties to even. *)
Definition format_1f (x : float) : string :=
  match x with
  | S754_nan => "nan"
  | S754_infinity s => if s then "-inf" else "inf"
  | S754_zero s => if s then "-0.0" else "0.0"
  | S754_finite s m e =>
      let n := round_half_even (Z.pos m * 10 * 2 ^ Z.max e 0) (2 ^ Z.max (- e) 0) in
      (if s then "-" else "") +:+ pretty (n `div` 10) +:+ "." +:+ pretty (n `mod` 10)
  end.

End Float.

(** ** Python values, exceptions and control *)

Module Py.

(** The values a field of [Student] is modelled to hold. *)
Inductive pyval : Type :=
  | PyNone
  | PyBool (b : bool)
  | PyFloat (x : Float.float)
  | PyStr (s : string).

#[global] Instance pyval_inhabited : Inhabited pyval := populate PyNone.

Definition type_name (v : pyval) : string :=
  match v with
  | PyNone => "NoneType"
  | PyBool _ => "bool"
  | PyFloat _ => "float"
  | PyStr _ => "str"
  end.

(** The exception classes that occur; all of them derive from [Exception],
    and [IOError] is another name of [OSError]. *)
Inductive pyexn : Type :=
  | TypeError (msg : string)
  | ValueError (msg : string)
  | KeyError (key : string)
  | OSError (msg : string).

Definition is_Exception (e : pyexn) : bool := true.

Definition is_OSError (e : pyexn) : bool :=
  match e with OSError _ => true | _ => false end.

Definition dquote : string := String (Ascii.ascii_of_nat 34) "".

(** [repr] of a [str], for text that is ASCII or printable. *)
Definition hex_digit (n : nat) : string :=
  String.substring n 1 "0123456789abcdef".

Definition repr_char (q : ascii) (c : ascii) : string :=
  let n := Ascii.nat_of_ascii c in
  if bool_decide (c = q) || bool_decide (n = 92%nat) then String "\" (String c "")
  else if bool_decide (n = 9%nat) then "\t"
  else if bool_decide (n = 10%nat) then "\n"
  else if bool_decide (n = 13%nat) then "\r"
  else if bool_decide (n < 32)%nat || bool_decide (n = 127%nat)
    then "\x" +:+ hex_digit (n / 16) +:+ hex_digit (n mod 16)
  else String c "".

Fixpoint has_char (c : ascii) (s : string) : bool :=
  match s with
  | EmptyString => false
  | String c' s' => bool_decide (c = c') || has_char c s'
  end.

Fixpoint repr_chars (q : ascii) (s : string) : string :=
  match s with
  | EmptyString => ""
  | String c s' => repr_char q c +:+ repr_chars q s'
  end.

Definition str_repr (s : string) : string :=
  let dq := Ascii.ascii_of_nat 34 in
  let q := if has_char "'" s && negb (has_char dq s) then dq else "'"%char in
  String q (repr_chars q s) +:+ String q "".

(** [str(e)] *)
Definition exn_str (e : pyexn) : string :=
  match e with
  | TypeError msg | ValueError msg | OSError msg => msg
  | KeyError key => str_repr key
  end.

(** [str(v)], which is also what an f-string field [{v}] inserts. *)
Definition py_str (v : pyval) : string :=
  match v with
  | PyNone => "None"
  | PyBool b => if b then "True" else "False"
  | PyFloat x => Float.repr x
  | PyStr s => s
  end.

(** [bool(v)] *)
Definition truthy (v : pyval) : bool :=
  match v with
  | PyNone => false
  | PyBool b => b
  | PyFloat x => negb (Float.eqb x Float.f0)
  | PyStr s => negb (bool_decide (s = ""))
  end.

(** [a and b] yields one of its operands; [not a] yields a [bool]. *)
Definition py_and (a b : pyval) : pyval := if truthy a then b else a.
Definition py_not (a : pyval) : pyval := PyBool (negb (truthy a)).

(** *** Results that may raise *)

Inductive res (A : Type) : Type :=
  | Ok (a : A)
  | Raise (e : pyexn).
#[global] Arguments Ok {A} a.
#[global] Arguments Raise {A} e.

#[global] Instance res_ret : MRet res := λ A a, Ok a.
#[global] Instance res_bind : MBind res := λ A B f m,
  match m with Ok a => f a | Raise e => Raise e end.

Definition unsupported (op : string) (l r : string) : pyexn :=
  TypeError ("'" +:+ op +:+ "' not supported between instances of '"
             +:+ l +:+ "' and '" +:+ r +:+ "'").

(** The number a [bool] or a [float] stands for in a comparison with a
    number. *)
Definition as_float (v : pyval) : option Float.float :=
  match v with
  | PyBool b => Some (Float.of_bool b)
  | PyFloat x => Some x
  | _ => None
  end.

(** [z <= v] and [v <= z] for an [int] literal [z] (0 and 100 in the
    source, which are floats exactly). *)
Definition int_le (z : Z) (v : pyval) : res bool :=
  match as_float v with
  | Some x => Ok (Float.leb (Float.of_Z z) x)
  | None => Raise (unsupported "<=" "int" (type_name v))
  end.

Definition le_int (v : pyval) (z : Z) : res bool :=
  match as_float v with
  | Some x => Ok (Float.leb x (Float.of_Z z))
  | None => Raise (unsupported "<=" (type_name v) "int")
  end.

(** The chained comparison [lo <= v <= hi]: the second test is made only
    when the first holds. *)
Definition chain_le (lo : Z) (v : pyval) (hi : Z) : res bool :=
  b ← int_le lo v;
  if b : bool then le_int v hi else mret false.

(** [v >= y] for a float [y]. *)
Definition ge_float (v : pyval) (y : Float.float) : res bool :=
  match as_float v with
  | Some x => Ok (Float.geb x y)
  | None => Raise (unsupported ">=" (type_name v) "float")
  end.

(** [v + y] for a float [y]. *)
Definition add_float (v : pyval) (y : Float.float) : res Float.float :=
  match v with
  | PyBool _ | PyFloat _ => Ok (Float.add (default Float.f0 (as_float v)) y)
  | PyNone => Raise (TypeError "unsupported operand type(s) for +: 'NoneType' and 'float'")
  | PyStr _ => Raise (TypeError ("can only concatenate str (not " +:+ dquote +:+ "float"
                                 +:+ dquote +:+ ") to str"))
  end.

(** [min(x, y)]: the second argument wins only when it is smaller. *)
Definition min (x y : Float.float) : Float.float :=
  if Float.ltb y x then y else x.

(** The f-string field [{v:.1f}]. *)
Definition format_1f (v : pyval) : res string :=
  match v with
  | PyBool _ | PyFloat _ => Ok (Float.format_1f (default Float.f0 (as_float v)))
  | PyNone => Raise (TypeError "unsupported format string passed to NoneType.__format__")
  | PyStr _ => Raise (ValueError "Unknown format code 'f' for object of type 'str'")
  end.

(** *** Statements: state and exceptions

    A statement runs in a state and leaves a state behind also when it
    raises: what was assigned or printed before an exception stays. *)

Definition M (S A : Type) : Type := S → res A * S.

#[global] Instance M_ret {S} : MRet (M S) := λ A a s, (Ok a, s).
#[global] Instance M_bind {S} : MBind (M S) := λ A B f m s,
  match m s with
  | (Ok a, s') => f a s'
  | (Raise e, s') => (Raise e, s')
  end.

Definition lift {S A} (r : res A) : M S A := λ s, (r, s).
Definition modify {S} (f : S → S) : M S unit := λ s, (Ok tt, f s).

(** [try: body except C as e: handler e] *)
Definition try_except {S A} (body : M S A) (C : pyexn → bool)
    (handler : pyexn → M S A) : M S A := λ s,
  match body s with
  | (Raise e, s') => if C e then handler e s' else (Raise e, s')
  | r => r
  end.

End Py.

Import Py.

(** ** Dictionaries that keep insertion order

    [results] is a Python [dict]: assigning an absent key appends it,
    assigning a present key replaces its value in place, and [items()] lists
    the entries in insertion order. *)

Module Dict.

Abbreviation t V := (list (string * V)).

Fixpoint set {V} (k : string) (v : V) (d : t V) : t V :=
  match d with
  | [] => [(k, v)]
  | (k', v') :: d' =>
      if decide (k = k') then (k, v) :: d' else (k', v') :: set k v d'
  end.

Fixpoint get {V} (k : string) (d : t V) : option V :=
  match d with
  | [] => None
  | (k', v') :: d' => if decide (k = k') then Some v' else get k d'
  end.

Definition keys {V} (d : t V) : list string := d.*1.

(** A [dict] holds a key once. *)
Definition wf {V} (d : t V) : Prop := NoDup (keys d).

End Dict.

(** ** The data of Activity1.py *)

(** [@dataclass class Student]: ten fields, none of them checked. *)
Record Student : Type := {
  name : pyval;
  attendance_pct : pyval;
  final_grade : pyval;
  username_ok : pyval;
  password_ok : pyval;
  is_locked : pyval;
  participated : pyval;
  base_score : pyval;
  id_valid : pyval;
  has_overdue : pyval
}.

(** The attributes [ExpertSystem.__init__] assigns. *)
Record ExpertSystem : Type := {
  csv_path : string;
  attendance_threshold : Float.float;
  passing_grade : Float.float;
  bonus_points : Float.float;
  max_score : Float.float
}.

(** [ExpertSystem(csv_path)] *)
Definition ExpertSystem_init (path : string) : ExpertSystem := {|
  csv_path := path;
  attendance_threshold := Float.f75;
  passing_grade := Float.f75;
  bonus_points := Float.f5;
  max_score := Float.f100
|}.

(** What a rule returns: the pair [(ok, detail)]. *)
Definition outcome : Type := pyval * string.

(** ** The five rules *)

Definition attendance_rule (self : ExpertSystem) (attendance_pct : pyval) : res outcome :=
  in_range ← chain_le 0 attendance_pct 100;
  if negb in_range then
    mret (PyBool false, "Invalid attendance: " +:+ py_str attendance_pct +:+ "%")
  else
    ok ← ge_float attendance_pct (attendance_threshold self);
    shown ← format_1f attendance_pct;
    mret (PyBool ok, "attendance=" +:+ shown +:+ "% -> "
                     +:+ (if ok : bool then "eligible" else "not eligible")).

Definition grading_rule (self : ExpertSystem) (final_grade : pyval) : res outcome :=
  in_range ← chain_le 0 final_grade 100;
  if negb in_range then
    mret (PyBool false, "Invalid grade: " +:+ py_str final_grade)
  else
    ok ← ge_float final_grade (passing_grade self);
    shown ← format_1f final_grade;
    mret (PyBool ok, "grade=" +:+ shown +:+ " -> " +:+ (if ok : bool then "pass" else "fail")).

Definition login_system_rule (self : ExpertSystem)
    (username_ok password_ok is_locked : pyval) : res outcome :=
  let ok := py_and (py_and username_ok password_ok) (py_not is_locked) in
  let detail :=
    "user_ok=" +:+ py_str username_ok +:+ ", pass_ok=" +:+ py_str password_ok
    +:+ ", locked=" +:+ py_str is_locked +:+ " -> "
    +:+ (if truthy ok then "login success" else "login denied") in
  mret (ok, detail).

Definition bonus_points_rule (self : ExpertSystem)
    (participated base_score : pyval) : res outcome :=
  in_range ← chain_le 0 base_score 100;
  if negb in_range then
    mret (PyBool false, "Invalid base score: " +:+ py_str base_score)
  else if truthy participated then
    sum ← add_float base_score (bonus_points self);
    let new_score := Py.min sum (max_score self) in
    mret (PyBool true,
          "participated=" +:+ py_str participated +:+ ", base=" +:+ py_str base_score
          +:+ " -> bonus +" +:+ Float.repr (bonus_points self)
          +:+ ", final=" +:+ Float.repr new_score)
  else
    mret (PyBool false,
          "participated=" +:+ py_str participated +:+ ", base=" +:+ py_str base_score
          +:+ " -> no bonus, final=" +:+ py_str base_score).

Definition library_borrowing_rule (self : ExpertSystem)
    (id_valid has_overdue : pyval) : res outcome :=
  let ok := py_and id_valid (py_not has_overdue) in
  mret (ok, "id_valid=" +:+ py_str id_valid +:+ ", overdue=" +:+ py_str has_overdue
            +:+ " -> " +:+ (if truthy ok then "allowed" else "not allowed")).

(** ** The world outside: the console and the files *)

Record world : Type := {
  stdout : list string;            (* the lines printed so far *)
  files : gmap string string       (* path to content, for the files that exist *)
}.

Definition put_line (line : string) (w : world) : world :=
  {| stdout := stdout w ++ [line]; files := files w |}.

Definition put_file (path content : string) (w : world) : world :=
  {| stdout := stdout w; files := <[path := content]> (files w) |}.

(** [print(line)] *)
Definition print (line : string) : M world unit := modify (put_line line).

(** A statement on the world, run inside a block that has local state [L]. *)
Definition outer {L A} (m : M world A) : M (L * world) A := λ s,
  let '(r, w') := m s.2 in (r, (s.1, w')).

(** ** The evaluator *)

(** The fixed order in which [evaluate_student] runs the rules. *)
Definition rule_order : list string :=
  ["AttendanceRule"; "GradingRule"; "LoginSystemRule"; "BonusPointsRule";
   "LibraryBorrowingRule"].

(** [results[key] = value] *)
Definition setitem (key : string) (value : outcome) : M (Dict.t outcome * world) unit :=
  modify (λ s, (Dict.set key value s.1, s.2)).

(** The five assignments inside [try:]. *)
Definition evaluate_student_body (self : ExpertSystem) (student : Student)
    : M (Dict.t outcome * world) unit :=
  r ← lift (attendance_rule self (attendance_pct student));
  setitem "AttendanceRule" r;;
  r ← lift (grading_rule self (final_grade student));
  setitem "GradingRule" r;;
  r ← lift (login_system_rule self (username_ok student) (password_ok student)
              (is_locked student));
  setitem "LoginSystemRule" r;;
  r ← lift (bonus_points_rule self (participated student) (base_score student));
  setitem "BonusPointsRule" r;;
  r ← lift (library_borrowing_rule self (id_valid student) (has_overdue student));
  setitem "LibraryBorrowingRule" r.

Definition evaluate_student (self : ExpertSystem) (student : Student)
    : M world (Dict.t outcome) := λ w,
  let block :=
    try_except (evaluate_student_body self student) is_Exception
      (λ e, outer (print ("Error evaluating student " +:+ py_str (name student)
                          +:+ ": " +:+ exn_str e))) in
  let '(r, (results, w')) := block ([], w) in
  (r ≫= λ _, mret results, w').

(** ** The csv module: [csv.DictWriter] with the default (excel) dialect *)

Module Csv.

Definition dq : ascii := Ascii.ascii_of_nat 34.
Definition cr : ascii := Ascii.ascii_of_nat 13.
Definition lf : ascii := Ascii.ascii_of_nat 10.

(** A field that is not a [str] is written as its [str()], [None] as the
    empty field. *)
Definition field (v : pyval) : string :=
  match v with
  | PyNone => ""
  | _ => py_str v
  end.

Definition needs_quotes (s : string) : bool :=
  has_char "," s || has_char dq s || has_char cr s || has_char lf s.

Fixpoint double_quotes (s : string) : string :=
  match s with
  | EmptyString => ""
  | String c s' =>
      if bool_decide (c = dq) then String dq (String dq (double_quotes s'))
      else String c (double_quotes s')
  end.

Definition quoted (s : string) : string :=
  if needs_quotes s then String dq (double_quotes s) +:+ String dq "" else s.

Fixpoint join (sep : string) (l : list string) : string :=
  match l with
  | [] => ""
  | [s] => s
  | s :: l' => s +:+ sep +:+ join sep l'
  end.

(** One record as [csv.writer] writes it. A record of one empty field is
    written quoted, so that no record is an empty line. *)
Definition line (fields : list string) : string :=
  match fields with
  | [EmptyString] => String dq (String dq "")
  | _ => join "," (quoted <$> fields)
  end +:+ String cr (String lf "").

(** [DictWriter._dict_to_list]: a key outside [fieldnames] is refused, an
    absent one is filled with the empty string. *)
Definition dict_to_list (fieldnames : list string) (rowdict : gmap string pyval)
    : res (list pyval) :=
  let wrong_fields := filter (λ k, k ∉ fieldnames) (map_to_list rowdict).*1 in
  if bool_decide (wrong_fields = []) then
    mret ((λ key, default (PyStr "") (rowdict !! key)) <$> fieldnames)
  else
    Raise (ValueError ("dict contains fields not in fieldnames: "
                       +:+ join ", " (str_repr <$> wrong_fields))).

End Csv.

(** ** The logger *)

(** What the surroundings decide in one call of [log_results]: the clock,
    and whether opening the file or writing it out fails. The text written
    through the file object is buffered and reaches the file when the [with]
    block is left, which is where a failure to write shows. *)
Record io_env : Type := {
  now : string;                   (* datetime.now().isoformat(timespec="seconds") *)
  open_error : option string;     (* the OSError of open(), if it fails *)
  close_error : option string     (* the OSError of the flush on leaving [with] *)
}.

Definition io_ok (io : io_env) : Prop := open_error io = None ∧ close_error io = None.

Definition fieldnames : list string :=
  ["timestamp"; "student";
   "AttendanceRule"; "AttendanceDetail";
   "GradingRule"; "GradingDetail";
   "LoginSystemRule"; "LoginDetail";
   "BonusPointsRule"; "BonusDetail";
   "LibraryBorrowingRule"; "LibraryDetail"].

Definition detail_mapping : gmap string string :=
  list_to_map
    [("AttendanceRule", "AttendanceDetail");
     ("GradingRule", "GradingDetail");
     ("LoginSystemRule", "LoginDetail");
     ("BonusPointsRule", "BonusDetail");
     ("LibraryBorrowingRule", "LibraryDetail")].

(** [d[key]] on a built-in [dict] *)
Definition getitem {V} (d : gmap string V) (key : string) : res V :=
  match d !! key with
  | Some v => Ok v
  | None => Raise (KeyError key)
  end.

(** [os.path.exists(path)] and [os.path.getsize(path)] *)
Definition path_exists (path : string) : M world bool := λ w,
  (Ok (bool_decide (is_Some (files w !! path))), w).

Definition getsize (path : string) : M world Z := λ w,
  match files w !! path with
  | Some content => (Ok (Z.of_nat (String.length content)), w)
  | None => (Raise (OSError ("[Errno 2] No such file or directory: " +:+ str_repr path)), w)
  end.

(** [with open(path, "a", newline="", encoding="utf-8") as f: body].
    The local state of [body] is the text written to [f] so far. *)
Definition with_open_append {A} (io : io_env) (path : string)
    (body : M (string * world) A) : M world A := λ w,
  match open_error io with
  | Some msg => (Raise (OSError msg), w)
  | None =>
      let w1 := put_file path (default "" (files w !! path)) w in
      let '(r, (written, w2)) := body ("", w1) in
      match close_error io with
      | Some msg => (Raise (OSError msg), w2)
      | None => (r, put_file path (default "" (files w2 !! path) +:+ written) w2)
      end
  end.

(** [f.write(text)] *)
Definition write (text : string) : M (string * world) unit :=
  modify (λ s, (s.1 +:+ text, s.2)).

(** [writer.writerow(rowdict)] and [writer.writeheader()] of a [DictWriter] *)
Definition writerow (fieldnames : list string) (rowdict : gmap string pyval)
    : M (string * world) unit :=
  fields ← lift (Csv.dict_to_list fieldnames rowdict);
  write (Csv.line (Csv.field <$> fields)).

Definition writeheader (fieldnames : list string) : M (string * world) unit :=
  writerow fieldnames (list_to_map (zip fieldnames (PyStr <$> fieldnames))).

(** [for rule_name, (result, detail) in results.items(): ...] *)
Fixpoint fill_row (items : Dict.t outcome) (row : gmap string pyval)
    : res (gmap string pyval) :=
  match items with
  | [] => mret row
  | (rule_name, (result, detail)) :: rest =>
      let row := <[rule_name := result]> row in
      detail_name ← getitem detail_mapping rule_name;
      fill_row rest (<[detail_name := PyStr detail]> row)
  end.

(** The first [try]: does the file need a header? *)
Definition need_header_check (self : ExpertSystem) : M world bool :=
  try_except
    (present ← path_exists (csv_path self);
     if negb present then mret true
     else size ← getsize (csv_path self); mret (size =? 0))
    is_OSError
    (λ _, mret true).

(** The body of the [with] block. *)
Definition log_results_block (student_name : pyval) (results : Dict.t outcome)
    (io : io_env) (need_header : bool) : M (string * world) unit :=
  (if need_header then writeheader fieldnames else mret tt);;
  let row : gmap string pyval :=
    <["student" := student_name]> (<["timestamp" := PyStr (now io)]> ∅) in
  row ← lift (fill_row results row);
  writerow fieldnames row.

Definition log_results (self : ExpertSystem) (student_name : pyval)
    (results : Dict.t outcome) (io : io_env) : M world unit :=
  need_header ← need_header_check self;
  try_except
    (with_open_append io (csv_path self)
       (log_results_block student_name results io need_header))
    is_OSError
    (λ e, print ("Error writing to CSV: " +:+ exn_str e)).


(** ** The driver *)

(** [os.path.join(a, b)] on a POSIX system. *)
Definition path_join (a b : string) : string :=
  if String.prefix "/" b then b
  else if bool_decide (a = "") || bool_decide (String.get (String.length a - 1) a = Some "/"%char)
  then a +:+ b
  else a +:+ "/" +:+ b.

(** [CSV_PATH], for the directory [home] that [os.path.expanduser("~")]
    names. *)
Definition CSV_PATH (home : string) : string :=
  path_join (path_join home "Downloads") "logic_results.csv".

(** [os.remove(path)]; [err] is the [OSError] of a refused removal. *)
Definition os_remove (err : option string) (path : string) : M world unit := λ w,
  match err with
  | Some msg => (Raise (OSError msg), w)
  | None =>
      match files w !! path with
      | Some _ => (Ok tt, {| stdout := stdout w; files := delete path (files w) |})
      | None =>
          (Raise (OSError ("[Errno 2] No such file or directory: " +:+ str_repr path)), w)
      end
  end.

(** The format field [{rule:20}]: a [str] padded with spaces on the right
    to 20 characters (ASCII text, as the rule names are). *)
Definition ljust (width : nat) (s : string) : string :=
  s +:+ Float.take_s (width - String.length s) "                    ".

(** [print(f" {status} {rule:20}: {detail}")] for one entry of [results]. *)
Definition report_line (item : string * outcome) : string :=
  " " +:+ (if truthy item.2.1 then "✓" else "✗") +:+ " " +:+ ljust 20 item.1
  +:+ ": " +:+ item.2.2.

(** [for rule, (ok, detail) in results.items(): print(...)] *)
Fixpoint print_results (items : Dict.t outcome) : M world unit :=
  match items with
  | [] => mret tt
  | item :: rest => print (report_line item);; print_results rest
  end.

(** One turn of the loop of [demo()]. *)
Definition demo_student (system : ExpertSystem) (student : Student) (io : io_env)
    : M world unit :=
  results ← evaluate_student system student;
  log_results system (name student) results io;;
  print (String Csv.lf "Student: " +:+ py_str (name student));;
  print_results results.

(** [for student in students: ...]; the [i]-th turn logs under [io i]. *)
Fixpoint demo_students (system : ExpertSystem) (students : list Student)
    (io : nat → io_env) (i : nat) : M world unit :=
  match students with
  | [] => mret tt
  | student :: rest =>
      demo_student system student (io i);; demo_students system rest io (S i)
  end.

(** ** Vocabulary of the properties *)

(** The five rule calls of [evaluate_student] on one student, in the order
    of the source, each with the key its result is stored under. *)
Definition rule_calls (self : ExpertSystem) (student : Student)
    : list (string * res outcome) :=
  [("AttendanceRule", attendance_rule self (attendance_pct student));
   ("GradingRule", grading_rule self (final_grade student));
   ("LoginSystemRule",
    login_system_rule self (username_ok student) (password_ok student) (is_locked student));
   ("BonusPointsRule", bonus_points_rule self (participated student) (base_score student));
   ("LibraryBorrowingRule",
    library_borrowing_rule self (id_valid student) (has_overdue student))].

(** The results of the calls that come before the first fault, and that
    fault, if there is one. *)
Fixpoint until_fault (calls : list (string * res outcome))
    : Dict.t outcome * option pyexn :=
  match calls with
  | [] => ([], None)
  | (key, Ok r) :: rest => let '(d, e) := until_fault rest in ((key, r) :: d, e)
  | (key, Raise e) :: _ => ([], Some e)
  end.

(** Calls that all returned: the entries of [done], each as a result. *)
Definition ok_calls (done : Dict.t outcome) : list (string * res outcome) :=
  (λ kr, (kr.1, Ok kr.2)) <$> done.

(** The reading of "a fault in one rule does not abort the others": every
    rule call that returns has its result in the mapping, whatever the other
    calls do. *)
Definition isolates_rule_faults : Prop :=
  ∀ self student w key r,
    (key, Ok r) ∈ rule_calls self student →
    ∃ results w',
      evaluate_student self student w = (Ok results, w')
      ∧ Dict.get key results = Some r.

(** The line [evaluate_student] prints when it catches [e]. *)
Definition evaluation_diagnostic (student : Student) (e : pyexn) : string :=
  "Error evaluating student " +:+ py_str (name student) +:+ ": " +:+ exn_str e.

(** The detail column of a rule. *)
Definition detail_column (rule : string) : string :=
  default "" (detail_mapping !! rule).

(** The text of the header row, and of the data row of one call: the time,
    the student, then for each rule in the fixed order its outcome and its
    detail, both empty when [results] has no entry for the rule. *)
Definition header_text : string := Csv.line fieldnames.

Definition rule_columns (results : Dict.t outcome) (rule : string) : list string :=
  match Dict.get rule results with
  | Some (ok, detail) => [Csv.field ok; detail]
  | None => [""; ""]
  end.

Definition data_fields (student_name : pyval) (results : Dict.t outcome) (io : io_env)
    : list string :=
  [now io; Csv.field student_name] ++ mjoin (rule_columns results <$> rule_order).

Definition data_text (student_name : pyval) (results : Dict.t outcome) (io : io_env)
    : string :=
  Csv.line (data_fields student_name results io).

(** The row [log_results] starts from, and what one turn of its loop adds
    for an entry of [results] whose key is a rule. *)
Definition start_row (student_name : pyval) (io : io_env) : gmap string pyval :=
  <["student" := student_name]> (<["timestamp" := PyStr (now io)]> ∅).

Definition row_step (row : gmap string pyval) (item : string * outcome)
    : gmap string pyval :=
  <[detail_column item.1 := PyStr item.2.2]> (<[item.1 := item.2.1]> row).

(** The content of the log file, empty when there is none. *)
Definition log_content (self : ExpertSystem) (w : world) : string :=
  default "" (files w !! csv_path self).

(** The log file is fresh: absent, or of size zero. *)
Definition fresh (self : ExpertSystem) (w : world) : bool :=
  bool_decide (files w !! csv_path self = None ∨ files w !! csv_path self = Some "").

(** The keys of [results] are among the five rule identifiers. *)
Definition known_keys (results : Dict.t outcome) : Prop :=
  Forall (λ key, key ∈ rule_order) (Dict.keys results).

(** Sample values: floats of the demonstration data and of the
    specification's examples. *)
Definition float_of_ratio (n d : Z) : Float.float :=
  SFdiv Float.prec Float.emax (Float.of_Z n) (Float.of_Z d).

Definition f50 : Float.float := Eval vm_compute in Float.of_Z 50.
Definition f96 : Float.float := Eval vm_compute in Float.of_Z 96.
Definition f82_5 : Float.float := Eval vm_compute in float_of_ratio 165 2.
Definition f150_5 : Float.float := Eval vm_compute in float_of_ratio 301 2.

(** The first student of [demo()]. *)
Definition Avellaneda : Student := {|
  name := PyStr "Avellaneda";
  attendance_pct := PyFloat f82_5;
  final_grade := PyFloat (Float.of_Z 78);
  username_ok := PyBool true;
  password_ok := PyBool true;
  is_locked := PyBool false;
  participated := PyBool true;
  base_score := PyFloat (Float.of_Z 88);
  id_valid := PyBool true;
  has_overdue := PyBool false
|}.

(** The second and the third student of [demo()]. *)
Definition Capili : Student := {|
  name := PyStr "Capili";
  attendance_pct := PyFloat (Float.of_Z 70);
  final_grade := PyFloat (Float.of_Z 72);
  username_ok := PyBool true;
  password_ok := PyBool false;
  is_locked := PyBool false;
  participated := PyBool false;
  base_score := PyFloat (Float.of_Z 65);
  id_valid := PyBool true;
  has_overdue := PyBool true
|}.

Definition Ramos : Student := {|
  name := PyStr "Ramos";
  attendance_pct := PyFloat (Float.of_Z 95);
  final_grade := PyFloat (Float.of_Z 92);
  username_ok := PyBool true;
  password_ok := PyBool true;
  is_locked := PyBool true;
  participated := PyBool true;
  base_score := PyFloat f96;
  id_valid := PyBool false;
  has_overdue := PyBool false
|}.

(** The same student with one field of the wrong type. *)
Definition with_attendance (v : pyval) (s : Student) : Student := {|
  name := name s;
  attendance_pct := v;
  final_grade := final_grade s;
  username_ok := username_ok s;
  password_ok := password_ok s;
  is_locked := is_locked s;
  participated := participated s;
  base_score := base_score s;
  id_valid := id_valid s;
  has_overdue := has_overdue s
|}.

Definition with_base_score (v : pyval) (s : Student) : Student := {|
  name := name s;
  attendance_pct := attendance_pct s;
  final_grade := final_grade s;
  username_ok := username_ok s;
  password_ok := password_ok s;
  is_locked := is_locked s;
  participated := participated s;
  base_score := v;
  id_valid := id_valid s;
  has_overdue := has_overdue s
|}.

(** Two students whose records break the annotations of [Student]. *)
Definition no_attendance : Student := with_attendance PyNone Avellaneda.
Definition no_base_score : Student := with_base_score (PyStr "n/a") Avellaneda.

Definition demo_system : ExpertSystem := ExpertSystem_init "logic_results.csv".

Definition empty_world : world := {| stdout := []; files := ∅ |}.

Definition io_at (time : string) : io_env :=
  {| now := time; open_error := None; close_error := None |}.

(** Sample arguments of [log_results]: the mapping a faulted evaluation
    leaves, a mapping with a key that is no rule, and an [open()] that is
    refused. *)
Definition partial_results : Dict.t outcome :=
  [("AttendanceRule", (PyBool true, "attendance=82.5% -> eligible"));
   ("GradingRule", (PyBool true, "grade=78.0 -> pass"));
   ("LoginSystemRule",
    (PyBool true, "user_ok=True, pass_ok=True, locked=False -> login success"))].

Definition stray_results : Dict.t outcome :=
  [("AttendanceRule", (PyBool true, "attendance=82.5% -> eligible"));
   ("DressCodeRule", (PyBool false, "no uniform"))].

Definition crlf : string := String Csv.cr (String Csv.lf "").

Definition denied_io : io_env :=
  {| now := "2025-09-01T08:00:00";
     open_error := Some "[Errno 13] Permission denied: 'logic_results.csv'";
     close_error := None |}.

(** ** The demonstration run *)

Definition test_students : list Student := [Avellaneda; Capili; Ramos].

(** [demo()] *)
Definition demo (home : string) (io : nat → io_env) : M world unit :=
  let system := ExpertSystem_init (CSV_PATH home) in
  print "=== Mini Expert System — Demo Run ===";;
  print ("CSV output: " +:+ csv_path system);;
  demo_students system test_students io 0;;
  print (String Csv.lf "Results logged to: " +:+ csv_path system).

(** What a run of the program meets outside: the home directory, whether
    [os.remove] is refused, and the I/O of each call of [log_results]. *)
Record run_env : Type := {
  home : string;
  remove_error : option string;
  log_io : nat → io_env
}.

(** The [if __name__ == "__main__":] block. *)
Definition main (env : run_env) : M world unit :=
  let csv_path := CSV_PATH (home env) in
  present ← path_exists csv_path;
  (if present : bool then os_remove (remove_error env) csv_path else mret tt);;
  demo (home env) (log_io env).

(** The mapping [evaluate_student] returns for a student, and the rows the
    loop of [demo()] logs for a list of students when the I/O works. *)
Definition evaluation (self : ExpertSystem) (student : Student) : Dict.t outcome :=
  (until_fault (rule_calls self student)).1.

Fixpoint student_rows (system : ExpertSystem) (students : list Student)
    (io : nat → io_env) (i : nat) : string :=
  match students with
  | [] => ""
  | student :: rest =>
      data_text (name student) (evaluation system student) (io i)
      +:+ student_rows system rest io (S i)
  end.

(** A run of the program in which nothing is refused. *)
Definition working_env : run_env :=
  {| home := "/home/student";
     remove_error := None;
     log_io := λ _, io_at "2025-09-01T08:00:00" |}.

(** * Properties *)

(** ** Order of floats *)

Lemma SFcompare_swap (x y : Float.float) :
  SFcompare y x = CompOpp <$> SFcompare x y.
Proof.
  destruct x as [sx|sx| |sx mx ex], y as [sy|sy| |sy my ey]; simpl;
    try reflexivity; try (destruct sx; reflexivity); try (destruct sy; reflexivity);
    try (destruct sx, sy; reflexivity).
  pose proof (Pos.compare_cont_antisym mx my Eq) as Hm. simpl in Hm.
  f_equal. destruct sx, sy; simpl; try reflexivity;
    rewrite (Z.compare_antisym ex ey); destruct (ex ?= ey); simpl;
    try reflexivity; rewrite <- Hm; try reflexivity;
    now destruct (Pos.compare_cont Eq mx my).
Qed.

Lemma Float_ltb_not_leb (x y : Float.float) :
  Float.ltb x y = true → Float.leb y x = false.
Proof.
  unfold Float.ltb, Float.leb, SFltb, SFleb. rewrite (SFcompare_swap x y).
  destruct (SFcompare x y) as [[]|]; simpl; congruence.
Qed.

(** Python orders floats by their exact values. *)

Lemma digits2_pos_bounds (m : positive) :
  2 ^ (Z.pos (digits2_pos m) - 1) ≤ Z.pos m < 2 ^ Z.pos (digits2_pos m).
Proof.
  induction m as [m IH|m IH|]; cbn [digits2_pos].
  - rewrite Pos2Z.inj_succ. replace (Z.succ (Z.pos (digits2_pos m)) - 1)
      with (Z.succ (Z.pos (digits2_pos m) - 1)) by lia.
    rewrite !Z.pow_succ_r by lia. lia.
  - rewrite Pos2Z.inj_succ. replace (Z.succ (Z.pos (digits2_pos m)) - 1)
      with (Z.succ (Z.pos (digits2_pos m) - 1)) by lia.
    rewrite !Z.pow_succ_r by lia. lia.
  - cbn. lia.
Qed.

(** What validity says of a finite float: the exponent is at least [emin],
    the mantissa has at most 53 bits, and exactly 53 above [emin]. *)
Lemma valid_finite (s : bool) (m : positive) (e : Z) :
  Float.valid (S754_finite s m e) = true →
  -1074 ≤ e ∧ Z.pos m < 2 ^ 53 ∧ (-1074 < e → 2 ^ 52 ≤ Z.pos m).
Proof.
  unfold Float.valid, valid_binary, bounded, canonical_mantissa, fexp, emin,
    Float.prec, Float.emax.
  intros [Hc _]%andb_true_iff. apply Z.eqb_eq in Hc.
  pose proof (digits2_pos_bounds m) as [Hlo Hhi].
  set (d := Z.pos (digits2_pos m)) in *.
  assert (0 < d) by (unfold d; lia).
  split; [lia|]. split.
  - apply Z.lt_le_trans with (1 := Hhi). apply Z.pow_le_mono_r; lia.
  - intros He. assert (d = 53) as Hd by lia. rewrite Hd in Hlo. exact Hlo.
Qed.

Lemma scaled_lt (P A B m m' : Z) :
  0 < P → 0 < A → 1 ≤ B → 0 < m → m < 2 * P → P ≤ m' →
  m * A < m' * (2 * A * B).
Proof.
  intros HP HA HB Hm0 Hm Hm'.
  assert (m * A < 2 * P * A) by nia.
  assert (2 * P * A ≤ m' * (2 * A)) by nia.
  assert (m' * (2 * A) ≤ m' * (2 * A * B)) by nia.
  lia.
Qed.

Lemma compare_magnitude (m1 m2 : positive) (e1 e2 : Z) :
  Float.valid (S754_finite false m1 e1) = true →
  Float.valid (S754_finite false m2 e2) = true →
  match e1 ?= e2 with
  | Lt => Lt
  | Gt => Gt
  | Eq => Pos.compare_cont Eq m1 m2
  end = (Z.pos m1 * 2 ^ (e1 + 1074) ?= Z.pos m2 * 2 ^ (e2 + 1074)).
Proof.
  intros (He1 & Hm1 & Hn1)%valid_finite (He2 & Hm2 & Hn2)%valid_finite.
  assert (∀ a b m m', 0 ≤ a → a < b → 0 < m → m < 2 ^ 53 → 2 ^ 52 ≤ m' →
            m * 2 ^ a < m' * 2 ^ b) as Hlt.
  { intros a b m m' Ha Hab Hm0 Hm Hm'.
    replace b with (Z.succ a + (b - a - 1)) by lia.
    rewrite Z.pow_add_r, Z.pow_succ_r by lia.
    apply (scaled_lt (2 ^ 52)); try assumption.
    - reflexivity.
    - apply Z.pow_pos_nonneg; lia.
    - apply (Z.pow_le_mono_r 2 0); lia. }
  destruct (Z.compare_spec e1 e2) as [->|Hlt12|Hgt12].
  - change (Pos.compare_cont Eq m1 m2) with (Z.pos m1 ?= Z.pos m2).
    assert (0 < 2 ^ (e2 + 1074)) as Hp by (apply Z.pow_pos_nonneg; lia).
    destruct (2 ^ (e2 + 1074)) as [|p|p]; try discriminate Hp.
    rewrite !(Z.mul_comm _ (Z.pos p)). symmetry. apply Zcompare_mult_compat.
  - symmetry. apply Z.compare_lt_iff. apply Hlt; lia.
  - symmetry. apply Z.compare_gt_iff. apply Hlt; lia.
Qed.

Lemma SFcompare_exact (x y : Float.float) :
  Float.valid x = true → Float.valid y = true →
  Float.is_finite x = true → Float.is_finite y = true →
  SFcompare x y = Some (Float.ulps x ?= Float.ulps y).
Proof.
  intros Hx Hy Hfx Hfy.
  destruct x as [sx|sx| |sx mx ex]; try discriminate Hfx;
    destruct y as [sy|sy| |sy my ey]; try discriminate Hfy; cbn [SFcompare Float.ulps].
  - reflexivity.
  - f_equal. assert (0 < Z.pos my * 2 ^ (ey - emin Float.prec Float.emax)).
    { apply Z.mul_pos_pos; [lia|]. apply valid_finite in Hy as [? _].
      apply Z.pow_pos_nonneg; [lia|]. unfold emin, Float.prec, Float.emax. lia. }
    destruct sy; cbn [cond_Zopp]; symmetry;
      [apply Z.compare_gt_iff | apply Z.compare_lt_iff]; lia.
  - f_equal. assert (0 < Z.pos mx * 2 ^ (ex - emin Float.prec Float.emax)).
    { apply Z.mul_pos_pos; [lia|]. apply valid_finite in Hx as [? _].
      apply Z.pow_pos_nonneg; [lia|]. unfold emin, Float.prec, Float.emax. lia. }
    destruct sx; cbn [cond_Zopp]; symmetry;
      [apply Z.compare_lt_iff | apply Z.compare_gt_iff]; lia.
  - f_equal.
    assert (0 < Z.pos mx * 2 ^ (ex - emin Float.prec Float.emax)) as Hpx.
    { apply Z.mul_pos_pos; [lia|]. apply valid_finite in Hx as [? _].
      apply Z.pow_pos_nonneg; [lia|]. unfold emin, Float.prec, Float.emax. lia. }
    assert (0 < Z.pos my * 2 ^ (ey - emin Float.prec Float.emax)) as Hpy.
    { apply Z.mul_pos_pos; [lia|]. apply valid_finite in Hy as [? _].
      apply Z.pow_pos_nonneg; [lia|]. unfold emin, Float.prec, Float.emax. lia. }
    pose proof (compare_magnitude mx my ex ey Hx Hy) as Hc.
    change (emin Float.prec Float.emax) with (-1074) in *.
    replace (ex - -1074) with (ex + 1074) in * by lia.
    replace (ey - -1074) with (ey + 1074) in * by lia.
    destruct sx, sy; cbn [cond_Zopp].
    + rewrite Z.compare_opp, (Z.compare_antisym (Z.pos mx * 2 ^ (ex + 1074))), <- Hc.
      now destruct (ex ?= ey).
    + symmetry. apply Z.compare_lt_iff. lia.
    + symmetry. apply Z.compare_gt_iff. lia.
    + exact Hc.
Qed.

Lemma Float_leb_exact (x y : Float.float) :
  Float.valid x = true → Float.valid y = true →
  Float.is_finite x = true → Float.is_finite y = true →
  Float.leb x y = true ↔ Float.ulps x ≤ Float.ulps y.
Proof.
  intros Hx Hy Hfx Hfy. unfold Float.leb, SFleb.
  rewrite (SFcompare_exact x y Hx Hy Hfx Hfy).
  destruct (Z.compare_spec (Float.ulps x) (Float.ulps y)); split; intros; try lia; congruence.
Qed.

Lemma Float_ltb_exact (x y : Float.float) :
  Float.valid x = true → Float.valid y = true →
  Float.is_finite x = true → Float.is_finite y = true →
  Float.ltb x y = true ↔ Float.ulps x < Float.ulps y.
Proof.
  intros Hx Hy Hfx Hfy. unfold Float.ltb, SFltb.
  rewrite (SFcompare_exact x y Hx Hy Hfx Hfy).
  destruct (Z.compare_spec (Float.ulps x) (Float.ulps y)); split; intros; try lia; congruence.
Qed.

Lemma literals_exact :
  Float.ulps Float.f0 = Float.units 0 ∧ Float.ulps Float.f5 = Float.units 5
  ∧ Float.ulps Float.f75 = Float.units 75 ∧ Float.ulps Float.f100 = Float.units 100.
Proof. repeat split; vm_compute; reflexivity. Qed.

Lemma thresholds_exact (x : Float.float) :
  Float.valid x = true → Float.is_finite x = true →
  (Float.leb Float.f0 x = true ↔ 0 ≤ Float.ulps x)
  ∧ (Float.leb x Float.f100 = true ↔ Float.ulps x ≤ Float.units 100)
  ∧ (Float.geb x Float.f75 = true ↔ Float.units 75 ≤ Float.ulps x)
  ∧ (Float.ltb x Float.f0 = true ↔ Float.ulps x < 0)
  ∧ (Float.ltb Float.f100 x = true ↔ Float.units 100 < Float.ulps x).
Proof.
  intros Hx Hfx. destruct literals_exact as (H0 & _ & H75 & H100).
  change (Float.units 0) with 0 in H0. rewrite <- H0, <- H75, <- H100.
  unfold Float.geb.
  repeat split; first [apply Float_leb_exact | apply Float_ltb_exact]; trivial;
    try reflexivity.
Qed.

Lemma Float_of_Z_literals :
  Float.of_Z 0 = Float.f0 ∧ Float.of_Z 100 = Float.f100.
Proof. split; reflexivity. Qed.

(** ** The range check and the formatting of a number *)

Lemma chain_le_number (v : pyval) (x : Float.float) :
  as_float v = Some x →
  chain_le 0 v 100 = Ok (Float.leb Float.f0 x && Float.leb x Float.f100).
Proof.
  intros Hv. unfold chain_le, int_le, le_int. rewrite Hv.
  destruct Float_of_Z_literals as [-> ->]. simpl.
  destruct (Float.leb Float.f0 x); reflexivity.
Qed.

Lemma chain_le_below_or_above (v : pyval) (x : Float.float) :
  as_float v = Some x →
  Float.ltb x Float.f0 = true ∨ Float.ltb Float.f100 x = true →
  chain_le 0 v 100 = Ok false.
Proof.
  intros Hv Hout. rewrite (chain_le_number v x Hv). f_equal.
  destruct Hout as [H%Float_ltb_not_leb | H%Float_ltb_not_leb]; rewrite H.
  - reflexivity.
  - apply andb_false_r.
Qed.

Lemma ge_float_number (v : pyval) (x y : Float.float) :
  as_float v = Some x → ge_float v y = Ok (Float.geb x y).
Proof. intros Hv. unfold ge_float. now rewrite Hv. Qed.

Lemma format_1f_number (v : pyval) (x : Float.float) :
  as_float v = Some x → format_1f v = Ok (Float.format_1f x).
Proof. destruct v; intros [= <-]; reflexivity. Qed.

Lemma add_float_number (v : pyval) (x y : Float.float) :
  as_float v = Some x → add_float v y = Ok (Float.add x y).
Proof. destruct v; intros [= <-]; reflexivity. Qed.

(** ** The rules *)

(** C1. Attendance Rule and Grading Rule, on a number [x] (a float, or a bool
    read as 0 or 1), with the comparisons of Python floats: when
    [0 <= x <= 100] the outcome is the truth value of [x >= 75.0], and the
    detail shows [x] with one decimal; when [x < 0] or [x > 100] the outcome
    is [False] and the detail starts with [Invalid]; at [75.0] itself the
    outcome is [True]. On the floats Python has, these comparisons are the
    order of the exact values: [0 <= x] is [0 ≤ ulps x], [x <= 100] is
    [ulps x ≤ units 100], and [x >= 75.0] is [units 75 ≤ ulps x]. *)
Theorem threshold_rules_boundary (path : string) (v : pyval) (x : Float.float) :
  as_float v = Some x →
  let self := ExpertSystem_init path in
  let ok := Float.geb x Float.f75 in
  (Float.leb Float.f0 x = true → Float.leb x Float.f100 = true →
     attendance_rule self v
       = Ok (PyBool ok, "attendance=" +:+ Float.format_1f x +:+ "% -> "
                        +:+ (if ok then "eligible" else "not eligible"))
     ∧ grading_rule self v
       = Ok (PyBool ok, "grade=" +:+ Float.format_1f x +:+ " -> "
                        +:+ (if ok then "pass" else "fail")))
  ∧ (Float.ltb x Float.f0 = true ∨ Float.ltb Float.f100 x = true →
     attendance_rule self v
       = Ok (PyBool false, "Invalid attendance: " +:+ py_str v +:+ "%")
     ∧ grading_rule self v = Ok (PyBool false, "Invalid grade: " +:+ py_str v))
  ∧ attendance_rule self (PyFloat Float.f75)
      = Ok (PyBool true, "attendance=75.0% -> eligible")
  ∧ grading_rule self (PyFloat Float.f75) = Ok (PyBool true, "grade=75.0 -> pass")
  ∧ (Float.valid x = true → Float.is_finite x = true →
     (Float.leb Float.f0 x = true ↔ 0 ≤ Float.ulps x)
     ∧ (Float.leb x Float.f100 = true ↔ Float.ulps x ≤ Float.units 100)
     ∧ (ok = true ↔ Float.units 75 ≤ Float.ulps x)
     ∧ (Float.ltb x Float.f0 = true ↔ Float.ulps x < 0)
     ∧ (Float.ltb Float.f100 x = true ↔ Float.units 100 < Float.ulps x)).
Proof.
  intros Hv self ok. split; [|split; [|split; [|split]]];
    [| | | | exact (thresholds_exact x)].
  - intros Hlo Hhi. unfold attendance_rule, grading_rule.
    rewrite (chain_le_number v x Hv), Hlo, Hhi. cbn [mbind res_bind andb negb].
    split; rewrite (ge_float_number v x _ Hv), (format_1f_number v x Hv); reflexivity.
  - intros Hout. unfold attendance_rule, grading_rule.
    rewrite (chain_le_below_or_above v x Hv Hout). split; reflexivity.
  - vm_compute. reflexivity.
  - vm_compute. reflexivity.
Qed.

Lemma threshold_rules_boundary_witness :
  attendance_rule demo_system (PyFloat f82_5)
    = Ok (PyBool true, "attendance=82.5% -> eligible")
  ∧ grading_rule demo_system (PyFloat f150_5)
    = Ok (PyBool false, "Invalid grade: 150.5").
Proof.
  destruct (threshold_rules_boundary "logic_results.csv" (PyFloat f82_5) f82_5 eq_refl)
    as (Hin & _).
  destruct (threshold_rules_boundary "logic_results.csv" (PyFloat f150_5) f150_5 eq_refl)
    as (_ & Hout & _).
  split.
  - exact (proj1 (Hin eq_refl eq_refl)).
  - exact (proj2 (Hout (or_intror eq_refl))).
Defined.

(** C4. Bonus Points Rule, on a base score [x] with [0 <= x <= 100]: with
    [participated = True] the outcome is [True] and the detail reports
    [min(x + 5.0, 100.0)] as the final score, which is 100.0 for 96.0 and 55.0
    for 50.0; with [participated = False] the outcome is [False] and the
    detail reports the base score itself. *)
Theorem bonus_points_rule_score (path : string) (v : pyval) (x : Float.float) :
  as_float v = Some x →
  Float.leb Float.f0 x = true → Float.leb x Float.f100 = true →
  let self := ExpertSystem_init path in
  bonus_points_rule self (PyBool true) v
    = Ok (PyBool true,
          "participated=True, base=" +:+ py_str v +:+ " -> bonus +5.0, final="
          +:+ Float.repr (Py.min (Float.add x Float.f5) Float.f100))
  ∧ bonus_points_rule self (PyBool false) v
    = Ok (PyBool false,
          "participated=False, base=" +:+ py_str v +:+ " -> no bonus, final=" +:+ py_str v)
  ∧ Py.min (Float.add f96 Float.f5) Float.f100 = Float.f100
  ∧ bonus_points_rule self (PyBool true) (PyFloat f96)
    = Ok (PyBool true, "participated=True, base=96.0 -> bonus +5.0, final=100.0")
  ∧ bonus_points_rule self (PyBool true) (PyFloat f50)
    = Ok (PyBool true, "participated=True, base=50.0 -> bonus +5.0, final=55.0").
Proof.
  intros Hv Hlo Hhi self. split; [|split; [|split; [|split]]].
  - unfold bonus_points_rule.
    rewrite (chain_le_number v x Hv), Hlo, Hhi. cbn [mbind res_bind andb negb truthy].
    rewrite (add_float_number v x _ Hv). reflexivity.
  - unfold bonus_points_rule.
    rewrite (chain_le_number v x Hv), Hlo, Hhi. reflexivity.
  - vm_compute. reflexivity.
  - vm_compute. reflexivity.
  - vm_compute. reflexivity.
Qed.

Lemma bonus_points_rule_score_witness :
  bonus_points_rule demo_system (PyBool true) (PyFloat f82_5)
    = Ok (PyBool true, "participated=True, base=82.5 -> bonus +5.0, final=87.5")
  ∧ bonus_points_rule demo_system (PyBool false) (PyFloat f82_5)
    = Ok (PyBool false, "participated=False, base=82.5 -> no bonus, final=82.5").
Proof.
  destruct (bonus_points_rule_score "logic_results.csv" (PyFloat f82_5) f82_5
              eq_refl eq_refl eq_refl) as (Hyes & Hno & _).
  split; [exact Hyes | exact Hno].
Defined.

(** C5. Login Rule on three booleans: the outcome is
    [username_ok and password_ok and not is_locked], which is [True] for
    (True, True, False) and for no other combination. *)
Theorem login_system_rule_truth_table (self : ExpertSystem) (u p l : bool) :
  (∃ detail,
     login_system_rule self (PyBool u) (PyBool p) (PyBool l)
       = Ok (PyBool (u && p && negb l), detail))
  ∧ (u && p && negb l = true ↔ (u, p, l) = (true, true, false))
  ∧ login_system_rule self (PyBool true) (PyBool true) (PyBool false)
    = Ok (PyBool true, "user_ok=True, pass_ok=True, locked=False -> login success").
Proof.
  split; [|split].
  - destruct u, p, l; eexists; reflexivity.
  - destruct u, p, l; simpl; split; congruence.
  - reflexivity.
Qed.

(** C6. Library Borrowing Rule on two booleans: the outcome is
    [id_valid and not has_overdue], which is [True] for (True, False) and for
    none of the other three combinations. *)
Theorem library_borrowing_rule_truth_table (self : ExpertSystem) (i o : bool) :
  (∃ detail,
     library_borrowing_rule self (PyBool i) (PyBool o)
       = Ok (PyBool (i && negb o), detail))
  ∧ (i && negb o = true ↔ (i, o) = (true, false))
  ∧ library_borrowing_rule self (PyBool true) (PyBool false)
    = Ok (PyBool true, "id_valid=True, overdue=False -> allowed").
Proof.
  split; [|split].
  - destruct i, o; eexists; reflexivity.
  - destruct i, o; simpl; split; congruence.
  - reflexivity.
Qed.

(** ** The evaluator *)

(** [evaluate_student] returns the results gathered before the first fault
    and prints one line for that fault. *)
Lemma evaluate_student_until_fault (self : ExpertSystem) (student : Student) (w : world) :
  evaluate_student self student w
  = (Ok (until_fault (rule_calls self student)).1,
     match (until_fault (rule_calls self student)).2 with
     | None => w
     | Some e => put_line (evaluation_diagnostic student e) w
     end).
Proof.
  unfold evaluate_student, evaluate_student_body, rule_calls, try_except.
  unfold login_system_rule, library_borrowing_rule.
  destruct (attendance_rule self (attendance_pct student)) as [r1|e1]; [|reflexivity].
  destruct (grading_rule self (final_grade student)) as [r2|e2]; [|reflexivity].
  destruct (bonus_points_rule self (participated student) (base_score student))
    as [r4|e4]; reflexivity.
Qed.

Lemma until_fault_ok_calls (done : Dict.t outcome) :
  until_fault (ok_calls done) = (done, None).
Proof.
  induction done as [|[k r] done IH]; [reflexivity|].
  cbn [ok_calls fmap list_fmap until_fault fst snd]. fold (ok_calls done).
  now rewrite IH.
Qed.

Lemma until_fault_raise (done : Dict.t outcome) key e post :
  until_fault (ok_calls done ++ (key, Raise e) :: post)%list = (done, Some e).
Proof.
  induction done as [|[k r] done IH]; [reflexivity|].
  cbn [ok_calls fmap list_fmap until_fault fst snd app]. fold (ok_calls done).
  now rewrite IH.
Qed.

Lemma until_fault_keys_prefix (calls : list (string * res outcome)) :
  Dict.keys (until_fault calls).1 `prefix_of` calls.*1.
Proof.
  induction calls as [|[k [r|e]] calls IH].
  - reflexivity.
  - cbn [until_fault]. destruct (until_fault calls) as [d e'].
    cbn [fst Dict.keys fmap list_fmap]. now apply prefix_cons.
  - apply prefix_nil.
Qed.

Lemma rule_calls_keys (self : ExpertSystem) (student : Student) :
  (rule_calls self student).*1 = rule_order.
Proof. reflexivity. Qed.

Lemma rule_order_NoDup : NoDup rule_order.
Proof. apply (bool_decide_unpack _). reflexivity. Qed.

Lemma Dict_get_absent {V} (d : Dict.t V) (k : string) :
  k ∉ Dict.keys d → Dict.get k d = None.
Proof.
  induction d as [|[k' v] d IH]; [reflexivity|].
  cbn [Dict.keys fmap list_fmap Dict.get fst]. intros Hk.
  apply not_elem_of_cons in Hk as [Hne Hk]. destruct (decide (k = k')); [done|].
  now apply IH.
Qed.

(** C2, as stated, fails: a student whose attendance is [None] makes the
    Attendance Rule fault; the Grading Rule on the same student returns, yet
    the mapping [evaluate_student] returns is empty. *)
Lemma fault_aborts_the_other_rules :
  attendance_rule demo_system (attendance_pct no_attendance)
    = Raise (TypeError "'<=' not supported between instances of 'int' and 'NoneType'")
  ∧ grading_rule demo_system (final_grade no_attendance)
    = Ok (PyBool true, "grade=78.0 -> pass")
  ∧ evaluate_student demo_system no_attendance empty_world
    = (Ok [],
       {| stdout := ["Error evaluating student Avellaneda: "
                     +:+ "'<=' not supported between instances of 'int' and 'NoneType'"];
          files := ∅ |})
  ∧ ¬ isolates_rule_faults.
Proof.
  split; [reflexivity|]. split; [vm_compute; reflexivity|].
  split; [vm_compute; reflexivity|].
  intros Hiso.
  destruct (Hiso demo_system no_attendance empty_world "GradingRule"
              (PyBool true, "grade=78.0 -> pass")) as (results & w' & Hrun & Hget).
  - unfold rule_calls. apply list_elem_of_further.
    replace (grading_rule demo_system (final_grade no_attendance))
      with (Ok (PyBool true, "grade=78.0 -> pass") : res outcome)
      by (vm_compute; reflexivity).
    apply list_elem_of_here.
  - rewrite evaluate_student_until_fault in Hrun.
    injection Hrun as <- _. discriminate Hget.
Qed.

(** C2, amended: when a rule faults after the rules before it returned, no
    rule after it is run. The mapping holds the results of the rules before
    the faulting one and nothing else: no entry for the faulting rule, none
    for a later rule. *)
Theorem evaluate_student_stops_at_fault (self : ExpertSystem) (student : Student)
    (w : world) (done : Dict.t outcome) (key : string) (e : pyexn)
    (post : list (string * res outcome)) :
  rule_calls self student = (ok_calls done ++ (key, Raise e) :: post)%list →
  (evaluate_student self student w).1 = Ok done
  ∧ (∀ k r, Dict.get k done = Some r → (k, Ok r) ∈ rule_calls self student)
  ∧ Dict.get key done = None
  ∧ (∀ c, c ∈ post → Dict.get c.1 done = None).
Proof.
  intros Hcalls.
  assert (NoDup (Dict.keys done ++ key :: post.*1)%list) as Hnd.
  { pose proof rule_order_NoDup as Hnd.
    rewrite <- (rule_calls_keys self student), Hcalls, fmap_app in Hnd.
    unfold ok_calls in Hnd. rewrite <- list_fmap_compose in Hnd. exact Hnd. }
  apply NoDup_app in Hnd as (Hdone & Hsep & _).
  split; [|split; [|split]].
  - now rewrite evaluate_student_until_fault, Hcalls, until_fault_raise.
  - intros k r Hget. rewrite Hcalls. apply elem_of_app. left.
    unfold ok_calls. apply (list_elem_of_fmap_2' _ _ (k, r)); [|reflexivity].
    clear -Hget. induction done as [|[k' r'] done IH]; [discriminate|].
    cbn [Dict.get] in Hget. destruct (decide (k = k')) as [->|].
    + injection Hget as ->. apply list_elem_of_here.
    + apply list_elem_of_further, IH, Hget.
  - apply Dict_get_absent. intros Hin. apply (Hsep key Hin), list_elem_of_here.
  - intros c Hc. apply Dict_get_absent. intros Hin. apply (Hsep c.1 Hin).
    apply list_elem_of_further, list_elem_of_fmap_2, Hc.
Qed.

Lemma evaluate_student_stops_at_fault_witness :
  (evaluate_student demo_system no_base_score empty_world).1
    = Ok [("AttendanceRule", (PyBool true, "attendance=82.5% -> eligible"));
          ("GradingRule", (PyBool true, "grade=78.0 -> pass"));
          ("LoginSystemRule",
           (PyBool true, "user_ok=True, pass_ok=True, locked=False -> login success"))].
Proof.
  refine (proj1 (evaluate_student_stops_at_fault demo_system no_base_score empty_world
                   _ "BonusPointsRule"
                   (TypeError "'<=' not supported between instances of 'int' and 'str'")
                   [("LibraryBorrowingRule",
                     Ok (PyBool true, "id_valid=True, overdue=False -> allowed"))] _)).
  vm_compute. reflexivity.
Defined.

(** C3. [evaluate_student] returns a mapping in every case: no fault of a
    rule reaches its caller. When a rule faults, it prints one line that
    names the student and the fault, and the mapping it returns is the one
    built before the fault; when none faults it prints nothing. *)
Theorem evaluate_student_never_raises (self : ExpertSystem) (student : Student)
    (w : world) :
  (∃ results w', evaluate_student self student w = (Ok results, w'))
  ∧ (∀ done key e post,
       rule_calls self student = (ok_calls done ++ (key, Raise e) :: post)%list →
       evaluate_student self student w
       = (Ok done,
          put_line ("Error evaluating student " +:+ py_str (name student)
                    +:+ ": " +:+ exn_str e) w))
  ∧ (∀ done,
       rule_calls self student = ok_calls done →
       evaluate_student self student w = (Ok done, w)).
Proof.
  rewrite evaluate_student_until_fault. split; [|split].
  - eexists _, _. reflexivity.
  - intros done key e post ->. now rewrite until_fault_raise.
  - intros done ->. now rewrite until_fault_ok_calls.
Qed.

Lemma evaluate_student_never_raises_witness :
  evaluate_student demo_system no_base_score empty_world
  = (Ok [("AttendanceRule", (PyBool true, "attendance=82.5% -> eligible"));
         ("GradingRule", (PyBool true, "grade=78.0 -> pass"));
         ("LoginSystemRule",
          (PyBool true, "user_ok=True, pass_ok=True, locked=False -> login success"))],
     put_line ("Error evaluating student Avellaneda: "
               +:+ "'<=' not supported between instances of 'int' and 'str'")
       empty_world).
Proof.
  refine (proj1 (proj2 (evaluate_student_never_raises demo_system no_base_score
                          empty_world))
            _ "BonusPointsRule"
            (TypeError "'<=' not supported between instances of 'int' and 'str'")
            [("LibraryBorrowingRule",
              Ok (PyBool true, "id_valid=True, overdue=False -> allowed"))] _).
  vm_compute. reflexivity.
Defined.

(** C9. The keys of the mapping [evaluate_student] returns, in insertion
    order, are an initial part of AttendanceRule, GradingRule,
    LoginSystemRule, BonusPointsRule, LibraryBorrowingRule: every key is one
    of the five, and with a rule's key the keys of all earlier rules are
    there too. *)
Theorem evaluate_student_keys_prefix (self : ExpertSystem) (student : Student)
    (w : world) :
  ∃ results w',
    evaluate_student self student w = (Ok results, w')
    ∧ Dict.keys results `prefix_of` rule_order
    ∧ (∀ k, k ∈ Dict.keys results → k ∈ rule_order)
    ∧ (∀ i j ki kj, (i ≤ j)%nat →
         rule_order !! i = Some ki → rule_order !! j = Some kj →
         kj ∈ Dict.keys results → ki ∈ Dict.keys results).
Proof.
  rewrite evaluate_student_until_fault. eexists _, _. split; [reflexivity|].
  pose proof (until_fault_keys_prefix (rule_calls self student)) as Hpre.
  rewrite rule_calls_keys in Hpre.
  set (keys := Dict.keys (until_fault (rule_calls self student)).1) in *.
  split; [exact Hpre|]. destruct Hpre as [rest Hrest]. split.
  - intros k Hk. rewrite Hrest. apply elem_of_app. now left.
  - intros i j ki kj Hij Hi Hj Hin.
    apply list_elem_of_lookup in Hin as [j' Hj'].
    assert (j' = j) as ->.
    { apply (NoDup_lookup rule_order j' j kj rule_order_NoDup); [|exact Hj].
      rewrite Hrest. now apply lookup_app_l_Some. }
    apply lookup_lt_Some in Hj'.
    apply (list_elem_of_lookup_2 _ i).
    rewrite Hrest, lookup_app_l in Hi by lia. exact Hi.
Qed.

(** The three students of [demo()]: the first passes every rule, the second
    none, the third is locked out and has no valid ID. *)
Example demo_Avellaneda :
  evaluate_student demo_system Avellaneda empty_world
  = (Ok [("AttendanceRule", (PyBool true, "attendance=82.5% -> eligible"));
         ("GradingRule", (PyBool true, "grade=78.0 -> pass"));
         ("LoginSystemRule",
          (PyBool true, "user_ok=True, pass_ok=True, locked=False -> login success"));
         ("BonusPointsRule",
          (PyBool true, "participated=True, base=88.0 -> bonus +5.0, final=93.0"));
         ("LibraryBorrowingRule",
          (PyBool true, "id_valid=True, overdue=False -> allowed"))],
     empty_world).
Proof. vm_compute. reflexivity. Qed.

Example demo_Capili :
  evaluate_student demo_system Capili empty_world
  = (Ok [("AttendanceRule", (PyBool false, "attendance=70.0% -> not eligible"));
         ("GradingRule", (PyBool false, "grade=72.0 -> fail"));
         ("LoginSystemRule",
          (PyBool false, "user_ok=True, pass_ok=False, locked=False -> login denied"));
         ("BonusPointsRule",
          (PyBool false, "participated=False, base=65.0 -> no bonus, final=65.0"));
         ("LibraryBorrowingRule",
          (PyBool false, "id_valid=True, overdue=True -> not allowed"))],
     empty_world).
Proof. vm_compute. reflexivity. Qed.

Example demo_Ramos :
  evaluate_student demo_system Ramos empty_world
  = (Ok [("AttendanceRule", (PyBool true, "attendance=95.0% -> eligible"));
         ("GradingRule", (PyBool true, "grade=92.0 -> pass"));
         ("LoginSystemRule",
          (PyBool false, "user_ok=True, pass_ok=True, locked=True -> login denied"));
         ("BonusPointsRule",
          (PyBool true, "participated=True, base=96.0 -> bonus +5.0, final=100.0"));
         ("LibraryBorrowingRule",
          (PyBool false, "id_valid=False, overdue=False -> not allowed"))],
     empty_world).
Proof. vm_compute. reflexivity. Qed.

(** ** The logger *)

Lemma rule_order_cases (P : string → Prop) :
  P "AttendanceRule" → P "GradingRule" → P "LoginSystemRule" → P "BonusPointsRule" →
  P "LibraryBorrowingRule" → ∀ rule, rule ∈ rule_order → P rule.
Proof.
  intros H1 H2 H3 H4 H5 rule Hin. unfold rule_order in Hin.
  repeat (apply elem_of_cons in Hin as [->|Hin]; [assumption|]).
  by apply elem_of_nil in Hin.
Qed.

Lemma detail_mapping_rule (rule : string) :
  rule ∈ rule_order → detail_mapping !! rule = Some (detail_column rule).
Proof. revert rule. apply rule_order_cases; reflexivity. Qed.

Lemma detail_mapping_dom (key detail : string) :
  detail_mapping !! key = Some detail → key ∈ rule_order.
Proof.
  intros H. apply elem_of_list_to_map_2 in H.
  apply (list_elem_of_fmap_2 fst) in H. exact H.
Qed.

Lemma detail_column_not_rule (rule rule' : string) :
  rule ∈ rule_order → rule' ∈ rule_order → detail_column rule ≠ rule'.
Proof.
  intros Hr Hr'. revert rule' Hr'. revert rule Hr.
  apply (rule_order_cases (λ rule, ∀ rule', rule' ∈ rule_order → detail_column rule ≠ rule'));
    apply rule_order_cases; vm_compute; discriminate.
Qed.

Lemma detail_column_inj (rule rule' : string) :
  rule ∈ rule_order → rule' ∈ rule_order →
  detail_column rule = detail_column rule' → rule = rule'.
Proof.
  intros Hr Hr'. revert rule' Hr'. revert rule Hr.
  apply (rule_order_cases (λ rule, ∀ rule', rule' ∈ rule_order →
                                     detail_column rule = detail_column rule' → rule = rule'));
    refine (rule_order_cases (λ rule', _ = detail_column rule' → _ = rule') _ _ _ _ _);
    vm_compute; congruence.
Qed.

Lemma fill_row_known (items : Dict.t outcome) (row : gmap string pyval) :
  known_keys items → fill_row items row = Ok (foldl row_step row items).
Proof.
  unfold known_keys, Dict.keys. revert row.
  induction items as [|[k [r d]] items IH]; intros row Hk; [reflexivity|].
  cbn [fmap list_fmap fst] in Hk. apply Forall_cons in Hk as [Hk Hks].
  cbn [fill_row foldl]. unfold getitem. rewrite (detail_mapping_rule k Hk).
  cbn [mbind res_bind]. now apply IH.
Qed.

Lemma fill_row_unknown (items : Dict.t outcome) (row : gmap string pyval) :
  ¬ known_keys items →
  ∃ key, key ∈ Dict.keys items ∧ (key ∉ rule_order)
         ∧ fill_row items row = Raise (KeyError key).
Proof.
  unfold known_keys, Dict.keys. revert row.
  induction items as [|[k [r d]] items IH]; intros row Hk.
  - destruct Hk. constructor.
  - cbn [fmap list_fmap fst fill_row]. unfold getitem.
    destruct (detail_mapping !! k) as [detail|] eqn:Hd.
    + apply detail_mapping_dom in Hd. cbn [mbind res_bind].
      destruct (IH (<[detail := PyStr d]> (<[k := r]> row))) as (key & Hin & Hout & Hrun).
      { intros Hks. apply Hk. now constructor. }
      exists key. split; [now apply list_elem_of_further|]. now split.
    + exists k. split; [apply list_elem_of_here|]. split; [|reflexivity].
      intros Hin. now rewrite (detail_mapping_rule k Hin) in Hd.
Qed.

Lemma row_step_other (row : gmap string pyval) (item : string * outcome) (c : string) :
  c ≠ item.1 → c ≠ detail_column item.1 → row_step row item !! c = row !! c.
Proof.
  intros H1 H2. unfold row_step. rewrite !lookup_insert_ne by congruence. reflexivity.
Qed.

Lemma foldl_row_step_other (items : Dict.t outcome) (row : gmap string pyval) (c : string) :
  c ∉ Dict.keys items → c ∉ detail_column <$> Dict.keys items →
  foldl row_step row items !! c = row !! c.
Proof.
  unfold Dict.keys. revert row.
  induction items as [|item items IH]; intros row H1 H2; [reflexivity|].
  cbn [fmap list_fmap] in H1, H2.
  apply not_elem_of_cons in H1 as [? ?]. apply not_elem_of_cons in H2 as [? ?].
  cbn [foldl]. rewrite IH by assumption. now apply row_step_other.
Qed.

Lemma foldl_row_step_rule (items : Dict.t outcome) (row : gmap string pyval)
    (rule : string) :
  Dict.wf items → known_keys items → rule ∈ rule_order →
  foldl row_step row items !! rule
  = match Dict.get rule items with Some r => Some r.1 | None => row !! rule end
  ∧ foldl row_step row items !! detail_column rule
    = match Dict.get rule items with
      | Some r => Some (PyStr r.2)
      | None => row !! detail_column rule
      end.
Proof.
  unfold Dict.wf, known_keys, Dict.keys. intros Hwf Hk Hrule. revert row.
  induction items as [|[k r] items IH]; intros row; [split; reflexivity|].
  cbn [fmap list_fmap fst] in Hwf, Hk.
  apply NoDup_cons in Hwf as [Hfresh Hwf]. apply Forall_cons in Hk as [Hk Hks].
  specialize (IH Hwf Hks). cbn [foldl Dict.get].
  destruct (decide (rule = k)) as [->|Hne].
  - assert (k ∉ detail_column <$> items.*1) as Hd.
    { intros (k' & Heq & Hk')%list_elem_of_fmap.
      rewrite Forall_forall in Hks.
      exact (detail_column_not_rule k' k (Hks _ Hk') Hk (eq_sym Heq)). }
    assert (detail_column k ∉ items.*1) as Hd1.
    { intros Hin. rewrite Forall_forall in Hks.
      exact (detail_column_not_rule k _ Hk (Hks _ Hin) eq_refl). }
    assert (detail_column k ∉ detail_column <$> items.*1) as Hd2.
    { intros (k' & Heq & Hk')%list_elem_of_fmap.
      rewrite Forall_forall in Hks.
      apply (detail_column_inj k k' Hk (Hks _ Hk')) in Heq. congruence. }
    rewrite !foldl_row_step_other by assumption.
    unfold row_step. cbn [fst snd]. split.
    + rewrite lookup_insert_ne by (apply detail_column_not_rule; assumption).
      apply lookup_insert_eq.
    + apply lookup_insert_eq.
  - destruct (IH (row_step row (k, r))) as [IH1 IH2]. rewrite IH1, IH2.
    destruct (Dict.get rule items); [split; reflexivity|].
    split; apply row_step_other; cbn [fst].
    + exact Hne.
    + intros Heq. exact (detail_column_not_rule k rule Hk Hrule (eq_sym Heq)).
    + intros Heq. exact (detail_column_not_rule rule k Hrule Hk Heq).
    + intros Heq. apply Hne. now apply detail_column_inj.
Qed.

Lemma rule_in_fieldnames (rule : string) :
  rule ∈ rule_order → rule ∈ fieldnames ∧ detail_column rule ∈ fieldnames.
Proof.
  revert rule. apply rule_order_cases; split; apply (bool_decide_unpack _); reflexivity.
Qed.

Lemma foldl_row_step_keys (items : Dict.t outcome) (student_name : pyval) (io : io_env)
    (c : string) :
  known_keys items →
  is_Some (foldl row_step (start_row student_name io) items !! c) → c ∈ fieldnames.
Proof.
  intros Hk Hc. unfold known_keys in Hk. rewrite Forall_forall in Hk.
  destruct (decide (c ∈ Dict.keys items)) as [Hin|Hout].
  { apply rule_in_fieldnames, Hk, Hin. }
  destruct (decide (c ∈ detail_column <$> Dict.keys items)) as [Hin|Hout'].
  { apply list_elem_of_fmap in Hin as (k & -> & Hin). apply rule_in_fieldnames, Hk, Hin. }
  rewrite foldl_row_step_other in Hc by assumption. unfold start_row in Hc.
  apply lookup_insert_is_Some in Hc as [<-|[_ Hc]]; [apply (bool_decide_unpack _); reflexivity|].
  apply lookup_insert_is_Some in Hc as [<-|[_ Hc]]; [apply (bool_decide_unpack _); reflexivity|].
  rewrite lookup_empty in Hc. by destruct Hc.
Qed.

Lemma dict_to_list_row (items : Dict.t outcome) (student_name : pyval) (io : io_env) :
  Dict.wf items → known_keys items →
  Csv.field <$> ((λ key, default (PyStr "") (foldl row_step (start_row student_name io) items !! key))
                 <$> fieldnames)
  = data_fields student_name items io.
Proof.
  intros Hwf Hk.
  pose proof (λ rule Hr, foldl_row_step_rule items (start_row student_name io) rule Hwf Hk Hr)
    as Hrule.
  assert (∀ rule, rule ∈ rule_order →
            Csv.field <$> ((λ key, default (PyStr "")
                                     (foldl row_step (start_row student_name io) items !! key))
                           <$> [rule; detail_column rule])
            = rule_columns items rule) as Hcols.
  { intros rule Hr. destruct (Hrule rule Hr) as [H1 H2].
    cbn [fmap list_fmap]. rewrite H1, H2. unfold rule_columns.
    destruct (Dict.get rule items) as [[ok detail]|]; [reflexivity|].
    clear H1 H2. revert rule Hr. apply rule_order_cases; reflexivity. }
  assert (∀ c, c ∉ rule_order → c ∉ detail_column <$> rule_order →
            foldl row_step (start_row student_name io) items !! c
            = start_row student_name io !! c) as Hother.
  { intros c H1 H2. apply foldl_row_step_other.
    - intros Hin. apply H1. unfold known_keys in Hk. rewrite Forall_forall in Hk.
      now apply Hk.
    - intros (k & -> & Hin)%list_elem_of_fmap. apply H2, list_elem_of_fmap_2.
      unfold known_keys in Hk. rewrite Forall_forall in Hk. now apply Hk. }
  unfold data_fields, rule_order. cbn [fmap list_fmap mjoin list_join].
  rewrite <- !Hcols by (apply (bool_decide_unpack _); reflexivity).
  unfold fieldnames. cbn [fmap list_fmap app].
  rewrite !(Hother "timestamp"), !(Hother "student")
    by (apply (bool_decide_unpack _); reflexivity).
  reflexivity.
Qed.

Lemma dict_to_list_known (items : Dict.t outcome) (student_name : pyval) (io : io_env) :
  known_keys items →
  Csv.dict_to_list fieldnames (foldl row_step (start_row student_name io) items)
  = Ok ((λ key, default (PyStr "")
                  (foldl row_step (start_row student_name io) items !! key))
        <$> fieldnames).
Proof.
  intros Hk. unfold Csv.dict_to_list.
  rewrite bool_decide_eq_true_2; [reflexivity|].
  apply elem_of_nil_inv. intros c [Hwrong Hc]%list_elem_of_filter. apply Hwrong.
  apply list_elem_of_fmap in Hc as ([c' v] & -> & Hc).
  apply elem_of_map_to_list in Hc.
  apply (foldl_row_step_keys items student_name io c' Hk). now exists v.
Qed.

Lemma writeheader_run (buf : string) (w : world) :
  writeheader fieldnames (buf, w) = (Ok tt, (buf +:+ header_text, w)).
Proof.
  unfold writeheader, writerow.
  replace (Csv.dict_to_list fieldnames (list_to_map (zip fieldnames (PyStr <$> fieldnames))))
    with (Ok (PyStr <$> fieldnames) : res (list pyval)) by (vm_compute; reflexivity).
  reflexivity.
Qed.

Ltac run_M := unfold mbind, M_bind, mret, M_ret, lift; cbn beta iota.

Lemma need_header_fresh (self : ExpertSystem) (w : world) :
  need_header_check self w = (Ok (fresh self w), w).
Proof.
  unfold need_header_check, try_except, path_exists, getsize, fresh. run_M.
  destruct (files w !! csv_path self) as [content|] eqn:Hfile.
  - rewrite (bool_decide_eq_true_2 (is_Some (Some content))) by (now exists content).
    cbn [negb]. rewrite Hfile. destruct content as [|c content]; cbn [String.length].
    + rewrite bool_decide_eq_true_2; [reflexivity|now right].
    + rewrite bool_decide_eq_false_2; [reflexivity|]. intros [?|?]; congruence.
  - rewrite (bool_decide_eq_false_2 (is_Some None)) by (intros [? ?]; congruence).
    cbn [negb]. rewrite bool_decide_eq_true_2; [reflexivity|now left].
Qed.

Lemma block_run_known (student_name : pyval) (results : Dict.t outcome) (io : io_env)
    (need_header : bool) (w : world) :
  Dict.wf results → known_keys results →
  log_results_block student_name results io need_header ("", w)
  = (Ok tt, ((if need_header then header_text else "")
             +:+ data_text student_name results io, w)).
Proof.
  intros Hwf Hk. unfold log_results_block. fold (start_row student_name io).
  assert (∀ buf, (lift (fill_row results (start_row student_name io))
                    ≫= writerow fieldnames) (buf, w)
                 = (Ok tt, (buf +:+ data_text student_name results io, w))) as Hrow.
  { intros buf. unfold writerow. run_M.
    rewrite (fill_row_known results _ Hk), (dict_to_list_known results _ _ Hk).
    unfold write, modify. cbn [fst snd].
    now rewrite (dict_to_list_row results student_name io Hwf Hk). }
  unfold mbind at 1. unfold M_bind at 1.
  destruct need_header.
  - rewrite writeheader_run. apply Hrow.
  - apply Hrow.
Qed.

Lemma block_run_unknown (student_name : pyval) (results : Dict.t outcome) (io : io_env)
    (need_header : bool) (w : world) :
  ¬ known_keys results →
  ∃ key, key ∈ Dict.keys results ∧ (key ∉ rule_order)
    ∧ log_results_block student_name results io need_header ("", w)
      = (Raise (KeyError key), (if need_header then header_text else "", w)).
Proof.
  intros Hk.
  destruct (fill_row_unknown results (start_row student_name io) Hk)
    as (key & Hin & Hout & Hrun).
  exists key. split; [exact Hin|]. split; [exact Hout|].
  unfold log_results_block. fold (start_row student_name io).
  unfold mbind at 1. unfold M_bind at 1.
  destruct need_header.
  - rewrite writeheader_run. run_M. now rewrite Hrun.
  - run_M. now rewrite Hrun.
Qed.

Lemma block_keeps_world (student_name : pyval) (results : Dict.t outcome) (io : io_env)
    (need_header : bool) (s : string * world) :
  (log_results_block student_name results io need_header s).2.2 = s.2.
Proof.
  destruct s as [buf w].
  assert (∀ buf, ((lift (fill_row results (start_row student_name io))
                    ≫= writerow fieldnames) (buf, w)).2.2 = w) as Hrow.
  { intros buf'. unfold writerow. run_M.
    destruct (fill_row results (start_row student_name io)) as [row|e]; [|reflexivity].
    destruct (Csv.dict_to_list fieldnames row) as [fields|e]; reflexivity. }
  unfold log_results_block. fold (start_row student_name io).
  unfold mbind at 1. unfold M_bind at 1.
  destruct need_header.
  - rewrite writeheader_run. apply Hrow.
  - apply Hrow.
Qed.

Lemma put_file_twice (path c0 c : string) (w : world) :
  put_file path c (put_file path c0 w) = put_file path c w.
Proof. unfold put_file. cbn [stdout files]. now rewrite insert_insert_eq. Qed.

Lemma files_put_file (path c : string) (w : world) :
  files (put_file path c w) !! path = Some c.
Proof. apply lookup_insert_eq. Qed.

(** What the [with] block of [log_results] does to the world when the file
    opens, whatever the block's own end. *)
Lemma with_open_append_block (self : ExpertSystem) (student_name : pyval)
    (results : Dict.t outcome) (io : io_env) (need_header : bool) (w : world) :
  open_error io = None →
  with_open_append io (csv_path self)
    (log_results_block student_name results io need_header) w
  = let run := log_results_block student_name results io need_header
                 ("", put_file (csv_path self) (log_content self w) w) in
    match close_error io with
    | Some msg => (Raise (OSError msg), put_file (csv_path self) (log_content self w) w)
    | None => (run.1, put_file (csv_path self) (log_content self w +:+ run.2.1) w)
    end.
Proof.
  intros Hopen. unfold with_open_append. rewrite Hopen. fold (log_content self w).
  pose proof (block_keeps_world student_name results io need_header
                ("", put_file (csv_path self) (log_content self w) w)) as Hw.
  destruct (log_results_block student_name results io need_header
              ("", put_file (csv_path self) (log_content self w) w)) as [r [written w2]].
  cbn [fst snd] in *. subst w2. destruct (close_error io); [reflexivity|].
  now rewrite files_put_file, put_file_twice.
Qed.

Lemma log_results_known (self : ExpertSystem) (student_name : pyval)
    (results : Dict.t outcome) (io : io_env) (w : world) :
  io_ok io → Dict.wf results → known_keys results →
  log_results self student_name results io w
  = (Ok tt,
     put_file (csv_path self)
       (log_content self w +:+ (if fresh self w then header_text else "")
        +:+ data_text student_name results io) w).
Proof.
  intros [Hopen Hclose] Hwf Hk. unfold log_results.
  unfold mbind, M_bind. rewrite need_header_fresh. unfold try_except.
  rewrite (with_open_append_block _ _ _ _ _ _ Hopen), Hclose.
  now rewrite (block_run_known _ _ _ _ _ Hwf Hk).
Qed.

Lemma log_results_unknown (self : ExpertSystem) (student_name : pyval)
    (results : Dict.t outcome) (io : io_env) (w : world) :
  io_ok io → ¬ known_keys results →
  ∃ key, key ∈ Dict.keys results ∧ (key ∉ rule_order)
    ∧ log_results self student_name results io w
      = (Raise (KeyError key),
         put_file (csv_path self)
           (log_content self w +:+ (if fresh self w then header_text else "")) w).
Proof.
  intros [Hopen Hclose] Hk.
  destruct (block_run_unknown student_name results io (fresh self w)
              (put_file (csv_path self) (log_content self w) w) Hk)
    as (key & Hin & Hout & Hrun).
  exists key. split; [exact Hin|]. split; [exact Hout|].
  unfold log_results. unfold mbind, M_bind. rewrite need_header_fresh. unfold try_except.
  rewrite (with_open_append_block _ _ _ _ _ _ Hopen), Hclose, Hrun. reflexivity.
Qed.

Lemma log_results_open_fails (self : ExpertSystem) (student_name : pyval)
    (results : Dict.t outcome) (io : io_env) (w : world) (msg : string) :
  open_error io = Some msg →
  log_results self student_name results io w
  = (Ok tt, put_line ("Error writing to CSV: " +:+ msg) w).
Proof.
  intros Hopen. unfold log_results. unfold mbind, M_bind.
  rewrite need_header_fresh. unfold try_except, with_open_append. rewrite Hopen.
  reflexivity.
Qed.

Lemma log_results_close_fails (self : ExpertSystem) (student_name : pyval)
    (results : Dict.t outcome) (io : io_env) (w : world) (msg : string) :
  open_error io = None → close_error io = Some msg →
  log_results self student_name results io w
  = (Ok tt, put_line ("Error writing to CSV: " +:+ msg)
              (put_file (csv_path self) (log_content self w) w)).
Proof.
  intros Hopen Hclose. unfold log_results. unfold mbind, M_bind.
  rewrite need_header_fresh. unfold try_except.
  rewrite (with_open_append_block _ _ _ _ _ _ Hopen), Hclose. reflexivity.
Qed.

Lemma fresh_no_content (self : ExpertSystem) (w : world) :
  fresh self w = true → log_content self w = "".
Proof.
  unfold fresh, log_content. intros [H|H]%bool_decide_eq_true; now rewrite H.
Qed.

Lemma append_empty_l (s : string) : "" +:+ s = s.
Proof. reflexivity. Qed.

Lemma fresh_after_header (self : ExpertSystem) (w : world) (s : string) :
  fresh self (put_file (csv_path self) (header_text +:+ s) w) = false.
Proof.
  unfold fresh. rewrite files_put_file. apply bool_decide_eq_false_2.
  intros [H|H]; [discriminate|]. injection H as H. discriminate H.
Qed.

(** C7. Two calls of [log_results] in a row, both with working I/O and
    with mappings over the five rules. From a log file that is absent or
    empty, the file ends up as one header row, then the row of the first
    call, then the row of the second. In general a call writes the header
    before its row exactly when the file is absent or empty at that call.
    The header's columns are timestamp, student, then for each rule in the
    fixed order its outcome column and right after it its detail column. *)
Theorem log_results_header_once (self : ExpertSystem) (w : world)
    (name1 name2 : pyval) (results1 results2 : Dict.t outcome) (io1 io2 : io_env) :
  io_ok io1 → io_ok io2 →
  Dict.wf results1 → known_keys results1 → Dict.wf results2 → known_keys results2 →
  let w1 := (log_results self name1 results1 io1 w).2 in
  let w2 := (log_results self name2 results2 io2 w1).2 in
  (fresh self w = true →
     files w2 !! csv_path self
     = Some (header_text +:+ data_text name1 results1 io1
             +:+ data_text name2 results2 io2))
  ∧ files w1 !! csv_path self
    = Some (log_content self w +:+ (if fresh self w then header_text else "")
            +:+ data_text name1 results1 io1)
  ∧ fieldnames
    = (["timestamp"; "student"]
       ++ mjoin ((λ rule, [rule; detail_column rule]) <$> rule_order))%list
  ∧ header_text
    = "timestamp,student,AttendanceRule,AttendanceDetail,GradingRule,GradingDetail,"
      +:+ "LoginSystemRule,LoginDetail,BonusPointsRule,BonusDetail,"
      +:+ "LibraryBorrowingRule,LibraryDetail" +:+ crlf.
Proof.
  intros Hio1 Hio2 Hwf1 Hk1 Hwf2 Hk2 w1 w2. subst w1 w2.
  rewrite (log_results_known self name1 results1 io1 w Hio1 Hwf1 Hk1). cbn [snd].
  split; [|split; [|split]].
  - intros Hfresh. rewrite Hfresh, (fresh_no_content self w Hfresh), append_empty_l.
    rewrite (log_results_known self name2 results2 io2 _ Hio2 Hwf2 Hk2). cbn [snd].
    rewrite files_put_file, fresh_after_header.
    unfold log_content. rewrite files_put_file. cbn [default]. rewrite append_empty_l.
    reflexivity.
  - apply files_put_file.
  - reflexivity.
  - vm_compute. reflexivity.
Qed.

Lemma log_results_header_once_witness :
  let w1 := (log_results demo_system (PyStr "Avellaneda") partial_results
               (io_at "2025-09-01T08:00:00") empty_world).2 in
  let w2 := (log_results demo_system (PyStr "Capili") [] (io_at "2025-09-01T08:00:01") w1).2 in
  files w2 !! "logic_results.csv"
  = Some (header_text
          +:+ data_text (PyStr "Avellaneda") partial_results (io_at "2025-09-01T08:00:00")
          +:+ "2025-09-01T08:00:01,Capili,,,,,,,,,," +:+ crlf).
Proof.
  refine (proj1 (log_results_header_once demo_system empty_world
                   (PyStr "Avellaneda") (PyStr "Capili") partial_results []
                   (io_at "2025-09-01T08:00:00") (io_at "2025-09-01T08:00:01")
                   _ _ _ _ _ _) _).
  - split; reflexivity.
  - split; reflexivity.
  - apply (bool_decide_unpack _). reflexivity.
  - apply (bool_decide_unpack _). reflexivity.
  - apply (bool_decide_unpack _). reflexivity.
  - apply (bool_decide_unpack _). reflexivity.
  - reflexivity.
Defined.

(** C8. When [open()] or the write on leaving the [with] block raises an
    [OSError], [log_results] returns normally: it prints one line with the
    error, and the log file has no more content than before. *)
Theorem log_results_io_failure (self : ExpertSystem) (student_name : pyval)
    (results : Dict.t outcome) (io : io_env) (w : world) :
  open_error io ≠ None ∨ close_error io ≠ None →
  ∃ msg,
    (open_error io = Some msg ∨ open_error io = None ∧ close_error io = Some msg)
    ∧ (log_results self student_name results io w).1 = Ok tt
    ∧ stdout (log_results self student_name results io w).2
      = (stdout w ++ ["Error writing to CSV: " +:+ msg])%list
    ∧ log_content self (log_results self student_name results io w).2
      = log_content self w.
Proof.
  intros Hfail.
  destruct (open_error io) as [msg|] eqn:Hopen.
  - exists msg. split; [now left|].
    rewrite (log_results_open_fails self student_name results io w msg Hopen).
    repeat split.
  - destruct (close_error io) as [msg|] eqn:Hclose; [|destruct Hfail; congruence].
    exists msg. split; [now right|].
    rewrite (log_results_close_fails self student_name results io w msg Hopen Hclose).
    split; [reflexivity|]. split; [reflexivity|].
    unfold log_content at 1. cbn [snd put_line files]. now rewrite files_put_file.
Qed.

Lemma log_results_io_failure_witness :
  (log_results demo_system (PyStr "Avellaneda") partial_results denied_io empty_world).1
  = Ok tt
  ∧ log_content demo_system
      (log_results demo_system (PyStr "Avellaneda") partial_results denied_io
         empty_world).2
    = "".
Proof.
  destruct (log_results_io_failure demo_system (PyStr "Avellaneda") partial_results
              denied_io empty_world (or_introl (Some_ne_None _)))
    as (msg & _ & Hret & _ & Hfile).
  exact (conj Hret Hfile).
Defined.

Lemma rule_order_index (i : nat) (rule : string) :
  rule_order !! i = Some rule →
  (i = 0 ∧ rule = "AttendanceRule")%nat ∨ (i = 1 ∧ rule = "GradingRule")%nat
  ∨ (i = 2 ∧ rule = "LoginSystemRule")%nat ∨ (i = 3 ∧ rule = "BonusPointsRule")%nat
  ∨ (i = 4 ∧ rule = "LibraryBorrowingRule")%nat.
Proof.
  unfold rule_order. do 5 (destruct i as [|i]; [intros [= <-]; tauto|]).
  discriminate.
Qed.

(** C10. With working I/O: for a mapping whose keys are among the five
    rules, [log_results] returns after appending (past the header, when one is
    due) exactly one row of twelve fields, aligned with the header: the time,
    the student, and for each rule its outcome and its detail, both empty when
    the mapping has no entry for the rule. For a mapping with a key that is no
    rule, [log_results] raises [KeyError] for such a key, and nothing catches
    it. *)
Theorem log_results_row (self : ExpertSystem) (student_name : pyval)
    (results : Dict.t outcome) (io : io_env) (w : world) :
  io_ok io → Dict.wf results →
  (known_keys results →
     log_results self student_name results io w
     = (Ok tt,
        put_file (csv_path self)
          (log_content self w +:+ (if fresh self w then header_text else "")
           +:+ data_text student_name results io) w)
     ∧ length (data_fields student_name results io) = length fieldnames
     ∧ data_fields student_name results io !! 0%nat = Some (now io)
     ∧ data_fields student_name results io !! 1%nat = Some (Csv.field student_name)
     ∧ ∀ i rule, rule_order !! i = Some rule →
         fieldnames !! (2 + 2 * i)%nat = Some rule
         ∧ fieldnames !! (3 + 2 * i)%nat = Some (detail_column rule)
         ∧ data_fields student_name results io !! (2 + 2 * i)%nat
           = Some (from_option (λ r, Csv.field r.1) "" (Dict.get rule results))
         ∧ data_fields student_name results io !! (3 + 2 * i)%nat
           = Some (from_option snd "" (Dict.get rule results)))
  ∧ (¬ known_keys results →
     ∃ key,
       key ∈ Dict.keys results ∧ (key ∉ rule_order)
       ∧ (log_results self student_name results io w).1 = Raise (KeyError key)).
Proof.
  intros Hio Hwf. split.
  - intros Hk. split; [now apply log_results_known|].
    unfold data_fields, rule_columns, rule_order. cbn [fmap list_fmap mjoin list_join].
    split; [|split; [reflexivity|split; [reflexivity|]]].
    + repeat match goal with
             | |- context [Dict.get ?rule results] =>
                 destruct (Dict.get rule results) as [[? ?]|]
             end; reflexivity.
    + intros i rule Hi.
      destruct (rule_order_index i rule Hi) as [[-> ->]|[[-> ->]|[[-> ->]|[[-> ->]|[-> ->]]]]];
        cbn [Nat.add Nat.mul];
        repeat match goal with
               | |- context [Dict.get ?rule results] =>
                   destruct (Dict.get rule results) as [[? ?]|]
               end; repeat split.
  - intros Hk. destruct (log_results_unknown self student_name results io w Hio Hk)
      as (key & Hin & Hout & Hrun).
    exists key. now rewrite Hrun.
Qed.

Lemma log_results_row_witness :
  log_results demo_system (PyStr "Avellaneda") partial_results
    (io_at "2025-09-01T08:00:00") empty_world
  = (Ok tt,
     put_file "logic_results.csv"
       (header_text
        +:+ data_text (PyStr "Avellaneda") partial_results (io_at "2025-09-01T08:00:00"))
       empty_world)
  ∧ ∃ key, key ∈ Dict.keys stray_results ∧ (key ∉ rule_order)
      ∧ (log_results demo_system (PyStr "Avellaneda") stray_results
           (io_at "2025-09-01T08:00:00") empty_world).1 = Raise (KeyError key).
Proof.
  split.
  - refine (proj1 (proj1 (log_results_row demo_system (PyStr "Avellaneda") partial_results
                            (io_at "2025-09-01T08:00:00") empty_world _ _) _)).
    + split; reflexivity.
    + apply (bool_decide_unpack _). reflexivity.
    + apply (bool_decide_unpack _). reflexivity.
  - refine (proj2 (log_results_row demo_system (PyStr "Avellaneda") stray_results
                     (io_at "2025-09-01T08:00:00") empty_world _ _) _).
    + split; reflexivity.
    + apply (bool_decide_unpack _). reflexivity.
    + intros Hk. apply (bool_decide_pack _) in Hk. exact Hk.
Defined.

(** * Further properties *)

(** ** The rules on any value *)

Lemma chain_le_not_number (v : pyval) :
  as_float v = None → chain_le 0 v 100 = Raise (unsupported "<=" "int" (type_name v)).
Proof. intros Hv. unfold chain_le, int_le. now rewrite Hv. Qed.

Lemma numeric_rule_faults (self : ExpertSystem) (p v : pyval) :
  as_float v = None →
  attendance_rule self v = Raise (unsupported "<=" "int" (type_name v))
  ∧ grading_rule self v = Raise (unsupported "<=" "int" (type_name v))
  ∧ bonus_points_rule self p v = Raise (unsupported "<=" "int" (type_name v)).
Proof.
  intros Hv. unfold attendance_rule, grading_rule, bonus_points_rule, chain_le, int_le.
  rewrite Hv. repeat split.
Qed.

Lemma numeric_rule_returns (self : ExpertSystem) (p v : pyval) :
  is_Some (as_float v) →
  (∃ o, attendance_rule self v = Ok o)
  ∧ (∃ o, grading_rule self v = Ok o)
  ∧ (∃ o, bonus_points_rule self p v = Ok o).
Proof.
  intros [x Hv]. unfold attendance_rule, grading_rule, bonus_points_rule.
  rewrite (chain_le_number v x Hv).
  destruct (Float.leb Float.f0 x && Float.leb x Float.f100);
    cbn [mbind res_bind negb];
    rewrite ?(ge_float_number v x _ Hv), ?(format_1f_number v x Hv),
      ?(add_float_number v x _ Hv);
    repeat split; try (eexists; reflexivity).
  destruct (truthy p); eexists; reflexivity.
Qed.

(** X1. The three rules that check a range fault exactly when the field
    they read is not a number: on [None] or a [str] each of them raises the
    [TypeError] of the comparison [0 <= value], whatever the other argument;
    on a [float] (NaN and the infinities included) or a [bool] each of them
    returns. *)
Theorem numeric_rules_fault_iff (self : ExpertSystem) (p v : pyval) :
  match as_float v with
  | None =>
      let fault := unsupported "<=" "int" (type_name v) in
      attendance_rule self v = Raise fault
      ∧ grading_rule self v = Raise fault
      ∧ bonus_points_rule self p v = Raise fault
  | Some _ =>
      (∃ o, attendance_rule self v = Ok o)
      ∧ (∃ o, grading_rule self v = Ok o)
      ∧ (∃ o, bonus_points_rule self p v = Ok o)
  end.
Proof.
  destruct (as_float v) as [x|] eqn:Hv.
  - apply numeric_rule_returns. rewrite Hv. now exists x.
  - now apply numeric_rule_faults.
Qed.

Lemma in_range_finite (x : Float.float) :
  Float.leb Float.f0 x = true → Float.leb x Float.f100 = true →
  Float.is_finite x = true.
Proof. destruct x as [s|[]| |s m e]; try reflexivity; discriminate. Qed.

Lemma threshold_rules_pass_in_range (path : string) (v : pyval) (detail : string) :
  attendance_rule (ExpertSystem_init path) v = Ok (PyBool true, detail)
  ∨ grading_rule (ExpertSystem_init path) v = Ok (PyBool true, detail) →
  ∃ x, as_float v = Some x
    ∧ Float.leb Float.f0 x = true ∧ Float.leb x Float.f100 = true
    ∧ Float.geb x Float.f75 = true.
Proof.
  intros Hpass. destruct (as_float v) as [x|] eqn:Hv.
  - exists x. split; [reflexivity|].
    unfold attendance_rule, grading_rule in Hpass.
    rewrite (chain_le_number v x Hv) in Hpass.
    destruct (Float.leb Float.f0 x), (Float.leb x Float.f100);
      cbn [mbind res_bind negb andb] in Hpass;
      try (destruct Hpass as [Hpass|Hpass]; discriminate Hpass).
    rewrite !(ge_float_number v x _ Hv), (format_1f_number v x Hv) in Hpass.
    cbn [mbind res_bind mret res_ret ExpertSystem_init attendance_threshold
           passing_grade] in Hpass.
    repeat split. destruct Hpass as [[= -> _]|[= -> _]]; reflexivity.
  - unfold attendance_rule, grading_rule in Hpass.
    rewrite (chain_le_not_number v Hv) in Hpass.
    destruct Hpass as [Hpass|Hpass]; discriminate Hpass.
Qed.

(** X2. A pass is never given outside the range: when the Attendance Rule
    or the Grading Rule returns [True], the value is a number, finite, with
    [75.0 <= value <= 100.0]; a NaN, an infinity, a negative value or one
    above 100 never passes. *)
Theorem threshold_rules_pass_sound (path : string) (v : pyval) (detail : string) :
  attendance_rule (ExpertSystem_init path) v = Ok (PyBool true, detail)
  ∨ grading_rule (ExpertSystem_init path) v = Ok (PyBool true, detail) →
  ∃ x, as_float v = Some x
    ∧ Float.is_finite x = true
    ∧ Float.leb Float.f75 x = true ∧ Float.leb x Float.f100 = true
    ∧ (Float.valid x = true →
       Float.units 75 ≤ Float.ulps x ∧ Float.ulps x ≤ Float.units 100).
Proof.
  intros Hpass.
  destruct (threshold_rules_pass_in_range path v detail Hpass)
    as (x & Hv & Hlo & Hhi & Hge).
  exists x. pose proof (in_range_finite x Hlo Hhi) as Hfin.
  repeat split; try assumption.
  - apply (thresholds_exact x); assumption.
  - apply (thresholds_exact x); assumption.
Qed.

Lemma threshold_rules_pass_sound_witness :
  ∃ x, as_float (PyFloat f82_5) = Some x
    ∧ Float.is_finite x = true
    ∧ Float.leb Float.f75 x = true ∧ Float.leb x Float.f100 = true
    ∧ (Float.valid x = true →
       Float.units 75 ≤ Float.ulps x ∧ Float.ulps x ≤ Float.units 100).
Proof.
  apply (threshold_rules_pass_sound "logic_results.csv" (PyFloat f82_5)
           "attendance=82.5% -> eligible").
  left. vm_compute. reflexivity.
Defined.

Lemma threshold_rules_in_range (path : string) (v : pyval) (x : Float.float) :
  as_float v = Some x →
  Float.leb Float.f0 x = true → Float.leb x Float.f100 = true →
  (∃ detail,
     attendance_rule (ExpertSystem_init path) v
     = Ok (PyBool (Float.geb x Float.f75), detail))
  ∧ (∃ detail,
       grading_rule (ExpertSystem_init path) v
       = Ok (PyBool (Float.geb x Float.f75), detail)).
Proof.
  intros Hv Hlo Hhi. unfold attendance_rule, grading_rule.
  rewrite (chain_le_number v x Hv), Hlo, Hhi. cbn [mbind res_bind andb negb].
  split; rewrite (ge_float_number v x _ Hv), (format_1f_number v x Hv);
    eexists; reflexivity.
Qed.

(** X3. The threshold rules are monotone: for two floats of Python with
    [x <= y <= 100.0], when the Attendance Rule (or the Grading Rule) passes
    [x] it passes [y]. *)
Theorem threshold_rules_monotone (path : string) (x y : Float.float) :
  Float.valid x = true → Float.valid y = true →
  Float.leb x y = true → Float.leb y Float.f100 = true →
  ((∃ detail, attendance_rule (ExpertSystem_init path) (PyFloat x)
              = Ok (PyBool true, detail)) →
   ∃ detail, attendance_rule (ExpertSystem_init path) (PyFloat y)
             = Ok (PyBool true, detail))
  ∧ ((∃ detail, grading_rule (ExpertSystem_init path) (PyFloat x)
                = Ok (PyBool true, detail)) →
     ∃ detail, grading_rule (ExpertSystem_init path) (PyFloat y)
               = Ok (PyBool true, detail)).
Proof.
  intros Hx Hy Hxy Hy100.
  assert (∀ detail,
            attendance_rule (ExpertSystem_init path) (PyFloat x) = Ok (PyBool true, detail)
            ∨ grading_rule (ExpertSystem_init path) (PyFloat x) = Ok (PyBool true, detail) →
            Float.leb Float.f0 y = true ∧ Float.geb y Float.f75 = true) as Hpass.
  { intros detail Hp.
    destruct (threshold_rules_pass_in_range path (PyFloat x) detail Hp)
      as (x' & [= <-] & Hlox & Hhix & Hgex).
    pose proof (in_range_finite x Hlox Hhix) as Hfx.
    assert (Float.units 75 ≤ Float.ulps x) as H75
      by (apply (thresholds_exact x); assumption).
    assert (Float.is_finite y = true) as Hfy.
    { destruct y as [s|[]| |s m e]; try reflexivity; try discriminate Hy100.
      destruct x as [s|[]| |s m e]; discriminate. }
    apply (Float_leb_exact x y Hx Hy Hfx Hfy) in Hxy.
    destruct (thresholds_exact y Hy Hfy) as (H0 & _ & Hge & _).
    split; [apply H0 | apply Hge]; [|lia].
    assert (0 ≤ Float.units 75) by (vm_compute; discriminate). lia. }
  split; intros [detail Hp].
  - destruct (Hpass detail (or_introl Hp)) as [Hlo Hge].
    destruct (threshold_rules_in_range path (PyFloat y) y eq_refl Hlo Hy100) as [Ha _].
    now rewrite Hge in Ha.
  - destruct (Hpass detail (or_intror Hp)) as [Hlo Hge].
    destruct (threshold_rules_in_range path (PyFloat y) y eq_refl Hlo Hy100) as [_ Hg].
    now rewrite Hge in Hg.
Qed.

Lemma threshold_rules_monotone_witness :
  ∃ detail, grading_rule (ExpertSystem_init "logic_results.csv") (PyFloat f96)
            = Ok (PyBool true, detail).
Proof.
  refine (proj2 (threshold_rules_monotone "logic_results.csv" f82_5 f96 _ _ _ _) _);
    try reflexivity.
  exists "grade=82.5 -> pass". vm_compute. reflexivity.
Defined.

(** X4. The Login Rule returns on any three values, not only booleans. Its
    outcome is truthy exactly when [username_ok] and [password_ok] are
    truthy and [is_locked] is not, and the detail says login success exactly
    then. The outcome is an operand of [and], so it need not be a [bool]: it
    is [username_ok] itself when that is falsy, else [password_ok] itself
    when that is falsy, else the bool [not is_locked]. *)
Theorem login_system_rule_any_values (self : ExpertSystem) (u p l : pyval) :
  ∃ ok,
    login_system_rule self u p l
    = Ok (ok, "user_ok=" +:+ py_str u +:+ ", pass_ok=" +:+ py_str p
              +:+ ", locked=" +:+ py_str l +:+ " -> "
              +:+ (if truthy ok then "login success" else "login denied"))
    ∧ truthy ok = truthy u && truthy p && negb (truthy l)
    ∧ (truthy u = false → ok = u)
    ∧ (truthy u = true → truthy p = false → ok = p)
    ∧ (truthy u = true → truthy p = true → ok = PyBool (negb (truthy l))).
Proof.
  eexists. split; [reflexivity|]. unfold py_and, py_not.
  destruct (truthy u) eqn:Hu, (truthy p) eqn:Hp; cbn [andb];
    rewrite ?Hu, ?Hp; repeat split; try discriminate; try reflexivity.
Qed.

(** X5. The Library Borrowing Rule returns on any two values. Its outcome
    is truthy exactly when [id_valid] is truthy and [has_overdue] is not,
    and the detail says allowed exactly then; the outcome is [id_valid]
    itself when that is falsy, else the bool [not has_overdue]. *)
Theorem library_borrowing_rule_any_values (self : ExpertSystem) (i o : pyval) :
  ∃ ok,
    library_borrowing_rule self i o
    = Ok (ok, "id_valid=" +:+ py_str i +:+ ", overdue=" +:+ py_str o +:+ " -> "
              +:+ (if truthy ok then "allowed" else "not allowed"))
    ∧ truthy ok = truthy i && negb (truthy o)
    ∧ (truthy i = false → ok = i)
    ∧ (truthy i = true → ok = PyBool (negb (truthy o))).
Proof.
  eexists. split; [reflexivity|]. unfold py_and, py_not.
  destruct (truthy i) eqn:Hi; cbn [andb]; rewrite ?Hi;
    repeat split; try discriminate; try reflexivity.
Qed.

(** X6. The Bonus Points Rule checks the base score before it looks at the
    participation. A base score outside [0 <= x <= 100] (a NaN included)
    gives [False] with an [Invalid base score] detail whatever
    [participated] is; inside the range the outcome is the truthiness of
    [participated], of any type. *)
Theorem bonus_points_rule_any_participation (self : ExpertSystem) (p v : pyval)
    (x : Float.float) :
  as_float v = Some x →
  if Float.leb Float.f0 x && Float.leb x Float.f100
  then ∃ detail, bonus_points_rule self p v = Ok (PyBool (truthy p), detail)
  else bonus_points_rule self p v
       = Ok (PyBool false, "Invalid base score: " +:+ py_str v).
Proof.
  intros Hv. unfold bonus_points_rule. rewrite (chain_le_number v x Hv).
  destruct (Float.leb Float.f0 x && Float.leb x Float.f100);
    cbn [mbind res_bind negb]; [|reflexivity].
  destruct (truthy p); [|eexists; reflexivity].
  rewrite (add_float_number v x _ Hv). eexists. reflexivity.
Qed.

Lemma bonus_points_rule_any_participation_witness :
  (∃ detail, bonus_points_rule demo_system (PyStr "yes") (PyFloat f50)
             = Ok (PyBool true, detail))
  ∧ bonus_points_rule demo_system (PyBool true) (PyFloat S754_nan)
    = Ok (PyBool false, "Invalid base score: nan").
Proof.
  split.
  - exact (bonus_points_rule_any_participation demo_system (PyStr "yes") (PyFloat f50)
             f50 eq_refl).
  - exact (bonus_points_rule_any_participation demo_system (PyBool true)
             (PyFloat S754_nan) S754_nan eq_refl).
Defined.

(** ** The bonus never passes the maximum *)

Lemma shr_1_nonneg (mrs : shr_record) : 0 ≤ shr_m mrs → 0 ≤ shr_m (shr_1 mrs).
Proof.
  destruct mrs as [[|[p|p|]|p] r s]; cbn [shr_m shr_1]; lia.
Qed.

Lemma iter_shr_1_nonneg (p : positive) (mrs : shr_record) :
  0 ≤ shr_m mrs → 0 ≤ shr_m (SpecFloat.iter_pos shr_1 p mrs).
Proof.
  revert mrs. induction p as [p IH|p IH|]; intros mrs Hm; cbn [SpecFloat.iter_pos].
  - now apply IH, IH, shr_1_nonneg.
  - now apply IH, IH.
  - now apply shr_1_nonneg.
Qed.

Lemma shr_fexp_nonneg (m e : Z) (l : location) :
  0 ≤ m → 0 ≤ shr_m (shr_fexp Float.prec Float.emax m e l).1.
Proof.
  intros Hm. unfold shr_fexp, shr.
  assert (shr_m (shr_record_of_loc m l) = m) as Hrec by (destruct l as [|[]]; reflexivity).
  destruct (fexp Float.prec Float.emax (Zdigits2 m + e) - e) as [|p|p]; cbn [fst];
    [lia| |lia].
  apply iter_shr_1_nonneg. lia.
Qed.

Lemma binary_round_aux_not_nan (s : bool) (m e : Z) (l : location) :
  0 ≤ m → binary_round_aux Float.prec Float.emax s m e l ≠ S754_nan.
Proof.
  intros Hm. unfold binary_round_aux.
  pose proof (shr_fexp_nonneg m e l Hm) as H1.
  destruct (shr_fexp Float.prec Float.emax m e l) as [mrs' e']. cbn [fst] in H1.
  assert (0 ≤ round_nearest_even (shr_m mrs') (loc_of_shr_record mrs')) as H2.
  { unfold round_nearest_even.
    destruct (loc_of_shr_record mrs') as [|[]]; try lia.
    destruct (Z.even (shr_m mrs')); lia. }
  pose proof (shr_fexp_nonneg _ e' loc_Exact H2) as H3.
  destruct (shr_fexp Float.prec Float.emax _ e' loc_Exact) as [mrs'' e''].
  cbn [fst] in H3. destruct (shr_m mrs'') as [|p|p]; [discriminate| |lia].
  destruct (e'' <=? Float.emax - Float.prec); discriminate.
Qed.

Lemma add_nonneg_not_nan (x y : Float.float) :
  Float.leb Float.f0 x = true → Float.leb Float.f0 y = true →
  Float.add x y ≠ S754_nan.
Proof.
  destruct x as [sx|[]| |[] mx ex]; try discriminate;
    destruct y as [sy|[]| |[] my ey]; try discriminate; intros _ _;
    try (destruct sx; discriminate); try (destruct sy; discriminate);
    try (destruct sx, sy; discriminate).
  unfold Float.add, SFadd. cbn [cond_Zopp].
  destruct (shl_align mx ex (Z.min ex ey)) as [ax ?],
           (shl_align my ey (Z.min ex ey)) as [ay ?]. cbn [fst].
  change (Z.pos ax + Z.pos ay) with (Z.pos (ax + ay)).
  cbn [binary_normalize]. unfold binary_round.
  match goal with
  | |- context [shl_align ?a ?b ?c] => destruct (shl_align a b c) as [mz ez]
  end.
  apply binary_round_aux_not_nan. lia.
Qed.

Lemma SFcompare_defined (x y : Float.float) :
  x ≠ S754_nan → y ≠ S754_nan → is_Some (SFcompare x y).
Proof.
  destruct x as [sx|sx| |sx mx ex], y as [sy|sy| |sy my ey]; intros Hx Hy;
    try congruence; cbn [SFcompare]; eexists; reflexivity.
Qed.

Lemma min_capped (s cap : Float.float) :
  s ≠ S754_nan → Float.leb cap cap = true → Float.leb (Py.min s cap) cap = true.
Proof.
  intros Hs Hcap. unfold Py.min.
  destruct (Float.ltb cap s) eqn:Hlt; [exact Hcap|].
  assert (cap ≠ S754_nan) as Hc by (intros ->; discriminate Hcap).
  destruct (SFcompare_defined cap s Hc Hs) as [c Hcmp].
  unfold Float.ltb, SFltb in Hlt. unfold Float.leb, SFleb.
  rewrite (SFcompare_swap cap s), Hcmp. rewrite Hcmp in Hlt.
  destruct c; [reflexivity|discriminate|reflexivity].
Qed.

(** X7. The bonus never passes the maximum: for a base score with
    [0 <= x <= 100] and participation, the final score the detail reports is
    a float that is not NaN and is at most 100.0. *)
Theorem bonus_points_rule_capped (path : string) (v : pyval) (x : Float.float) :
  as_float v = Some x →
  Float.leb Float.f0 x = true → Float.leb x Float.f100 = true →
  ∃ new_score,
    bonus_points_rule (ExpertSystem_init path) (PyBool true) v
    = Ok (PyBool true,
          "participated=True, base=" +:+ py_str v +:+ " -> bonus +5.0, final="
          +:+ Float.repr new_score)
    ∧ Float.leb new_score Float.f100 = true
    ∧ new_score ≠ S754_nan.
Proof.
  intros Hv Hlo Hhi. exists (Py.min (Float.add x Float.f5) Float.f100).
  assert (Float.add x Float.f5 ≠ S754_nan) as Hsum
    by (apply add_nonneg_not_nan; [exact Hlo|reflexivity]).
  assert (Float.leb (Py.min (Float.add x Float.f5) Float.f100) Float.f100 = true) as Hcap
    by (apply min_capped; [exact Hsum|reflexivity]).
  split; [|split; [exact Hcap|]].
  - unfold bonus_points_rule.
    rewrite (chain_le_number v x Hv), Hlo, Hhi. cbn [mbind res_bind andb negb truthy].
    rewrite (add_float_number v x _ Hv). reflexivity.
  - intros Hnan. rewrite Hnan in Hcap. discriminate Hcap.
Qed.

Lemma bonus_points_rule_capped_witness :
  ∃ new_score,
    bonus_points_rule (ExpertSystem_init "logic_results.csv") (PyBool true) (PyFloat f96)
    = Ok (PyBool true,
          "participated=True, base=" +:+ py_str (PyFloat f96) +:+ " -> bonus +5.0, final="
          +:+ Float.repr new_score)
    ∧ Float.leb new_score Float.f100 = true
    ∧ new_score ≠ S754_nan.
Proof.
  exact (bonus_points_rule_capped "logic_results.csv" (PyFloat f96) f96
           eq_refl eq_refl eq_refl).
Defined.

(** ** The evaluator, field by field *)

(** X8. Which rules [evaluate_student] gets through is decided by the
    first of attendance, final grade and base score that is not a number.
    Attendance not a number: empty mapping. Else final grade not a number:
    the Attendance Rule alone. Else base score not a number: the first three
    rules. Else all five, in order, and then nothing is printed and the world
    is unchanged. In the three faulting cases one diagnostic line is printed.
    The mapping never has two or four entries. *)
Theorem evaluate_student_by_first_bad_field (self : ExpertSystem) (student : Student)
    (w : world) :
  let fault v := unsupported "<=" "int" (type_name v) in
  match as_float (attendance_pct student), as_float (final_grade student),
        as_float (base_score student) with
  | None, _, _ =>
      evaluate_student self student w
      = (Ok [], put_line (evaluation_diagnostic student (fault (attendance_pct student))) w)
  | Some _, None, _ =>
      ∃ o1,
        evaluate_student self student w
        = (Ok [("AttendanceRule", o1)],
           put_line (evaluation_diagnostic student (fault (final_grade student))) w)
  | Some _, Some _, None =>
      ∃ o1 o2 o3,
        evaluate_student self student w
        = (Ok [("AttendanceRule", o1); ("GradingRule", o2); ("LoginSystemRule", o3)],
           put_line (evaluation_diagnostic student (fault (base_score student))) w)
  | Some _, Some _, Some _ =>
      ∃ o1 o2 o3 o4 o5,
        evaluate_student self student w
        = (Ok [("AttendanceRule", o1); ("GradingRule", o2); ("LoginSystemRule", o3);
               ("BonusPointsRule", o4); ("LibraryBorrowingRule", o5)], w)
  end.
Proof.
  intros fault. rewrite evaluate_student_until_fault. unfold rule_calls.
  destruct (as_float (attendance_pct student)) as [x1|] eqn:H1.
  2:{ destruct (numeric_rule_faults self PyNone _ H1) as (-> & _). reflexivity. }
  destruct (numeric_rule_returns self PyNone (attendance_pct student)) as ([o1 ->] & _);
    [now rewrite H1|].
  destruct (as_float (final_grade student)) as [x2|] eqn:H2.
  2:{ destruct (numeric_rule_faults self PyNone _ H2) as (_ & -> & _).
      exists o1. reflexivity. }
  destruct (numeric_rule_returns self PyNone (final_grade student)) as (_ & [o2 ->] & _);
    [now rewrite H2|].
  destruct (as_float (base_score student)) as [x3|] eqn:H3.
  2:{ destruct (numeric_rule_faults self (participated student) _ H3) as (_ & _ & ->).
      eexists o1, o2, _. reflexivity. }
  destruct (numeric_rule_returns self (participated student) (base_score student))
    as (_ & _ & [o4 ->]); [now rewrite H3|].
  eexists o1, o2, _, o4, _. reflexivity.
Qed.

(** ** The logger on every call *)

Lemma append_empty_r (s : string) : s +:+ "" = s.
Proof.
  induction s as [|c s IH]; [reflexivity|].
  change (String c s +:+ "") with (String c (s +:+ "")). now rewrite IH.
Qed.

(** Whatever its arguments and its I/O, a call either leaves the files as
    they are or extends the content of the log file. *)
Lemma log_results_files (self : ExpertSystem) (student_name : pyval)
    (results : Dict.t outcome) (io : io_env) (w : world) :
  files (log_results self student_name results io w).2 = files w
  ∨ ∃ added,
      files (log_results self student_name results io w).2
      = <[csv_path self := log_content self w +:+ added]> (files w).
Proof.
  destruct (open_error io) as [msg|] eqn:Hopen.
  { left. now rewrite (log_results_open_fails _ _ _ _ _ msg Hopen). }
  right. unfold log_results. unfold mbind, M_bind. rewrite need_header_fresh.
  unfold try_except. rewrite (with_open_append_block _ _ _ _ _ _ Hopen).
  destruct (log_results_block student_name results io (fresh self w)
              ("", put_file (csv_path self) (log_content self w) w)) as [r [written w2]].
  cbn [fst snd]. destruct (close_error io) as [msg|].
  - exists "". cbn [is_OSError]. now rewrite append_empty_r.
  - exists written. destruct r as [[]|e]; [reflexivity|].
    destruct (is_OSError e); reflexivity.
Qed.

(** X9. [log_results] only ever appends, on every call, whatever the
    mapping and however the I/O and the call end: the old content of the log
    file is an initial part of the new one, no other file changes, and an
    existing log file still exists. *)
Theorem log_results_append_only (self : ExpertSystem) (student_name : pyval)
    (results : Dict.t outcome) (io : io_env) (w : world) :
  let w' := (log_results self student_name results io w).2 in
  (∃ added, log_content self w' = log_content self w +:+ added)
  ∧ (∀ path, path ≠ csv_path self → files w' !! path = files w !! path)
  ∧ (is_Some (files w !! csv_path self) → is_Some (files w' !! csv_path self)).
Proof.
  intros w'. subst w'.
  destruct (log_results_files self student_name results io w) as [Hsame|[added Hadd]].
  - unfold log_content. rewrite Hsame. split; [|split].
    + exists "". now rewrite append_empty_r.
    + reflexivity.
    + trivial.
  - unfold log_content at 1. rewrite Hadd. split; [|split].
    + exists added. now rewrite lookup_insert_eq.
    + intros path Hne. now rewrite lookup_insert_ne.
    + intros _. rewrite lookup_insert_eq. now eexists.
Qed.

Lemma known_keys_dec (results : Dict.t outcome) :
  known_keys results ∨ ¬ known_keys results.
Proof. unfold known_keys. destruct (decide (Forall (λ key, key ∈ rule_order) (Dict.keys results))); auto. Qed.

(** X10. On a log file that is not empty, a call never writes a header: it
    adds its data row when the I/O works and the keys are rules, and nothing
    at all otherwise (refused open, failed write, unknown key). *)
Theorem log_results_on_nonempty_file (self : ExpertSystem) (student_name : pyval)
    (results : Dict.t outcome) (io : io_env) (w : world) :
  fresh self w = false → Dict.wf results →
  let w' := (log_results self student_name results io w).2 in
  (io_ok io → known_keys results →
     log_content self w' = log_content self w +:+ data_text student_name results io)
  ∧ (¬ (io_ok io ∧ known_keys results) → log_content self w' = log_content self w).
Proof.
  intros Hfresh Hwf w'. subst w'. split.
  - intros Hio Hk. rewrite (log_results_known _ _ _ _ _ Hio Hwf Hk), Hfresh.
    unfold log_content at 1. cbn [snd]. now rewrite files_put_file.
  - intros Hnot.
    destruct (open_error io) as [msg|] eqn:Hopen.
    { now rewrite (log_results_open_fails _ _ _ _ _ msg Hopen). }
    destruct (close_error io) as [msg|] eqn:Hclose.
    { rewrite (log_results_close_fails _ _ _ _ _ msg Hopen Hclose).
      unfold log_content at 1. cbn [snd put_line files]. now rewrite files_put_file. }
    assert (io_ok io) as Hio by (split; assumption).
    destruct (known_keys_dec results) as [Hk|Hk]; [destruct Hnot; now split|].
    destruct (log_results_unknown self student_name results io w Hio Hk)
      as (key & _ & _ & ->).
    rewrite Hfresh, append_empty_r. unfold log_content at 1. cbn [snd].
    now rewrite files_put_file.
Qed.

Lemma log_results_on_nonempty_file_witness :
  log_content demo_system
    (log_results demo_system (PyStr "Avellaneda") partial_results
       (io_at "2025-09-01T08:00:00")
       (put_file "logic_results.csv" header_text empty_world)).2
  = header_text
    +:+ data_text (PyStr "Avellaneda") partial_results (io_at "2025-09-01T08:00:00").
Proof.
  refine (proj1 (log_results_on_nonempty_file demo_system (PyStr "Avellaneda")
                   partial_results (io_at "2025-09-01T08:00:00")
                   (put_file "logic_results.csv" header_text empty_world) _ _) _ _).
  - reflexivity.
  - apply (bool_decide_unpack _). reflexivity.
  - split; reflexivity.
  - apply (bool_decide_unpack _). reflexivity.
Defined.

(** X11. A call that raises [KeyError] on a fresh log file still leaves the
    header behind, and no row. The next call with a mapping over the rules
    then adds its row without a second header. *)
Theorem header_survives_key_error (self : ExpertSystem) (w : world)
    (name1 name2 : pyval) (results1 results2 : Dict.t outcome) (io1 io2 : io_env) :
  fresh self w = true → io_ok io1 → io_ok io2 →
  ¬ known_keys results1 → Dict.wf results2 → known_keys results2 →
  let run1 := log_results self name1 results1 io1 w in
  let run2 := log_results self name2 results2 io2 run1.2 in
  (∃ key, run1.1 = Raise (KeyError key))
  ∧ log_content self run1.2 = header_text
  ∧ run2.1 = Ok tt
  ∧ log_content self run2.2 = header_text +:+ data_text name2 results2 io2.
Proof.
  intros Hfresh Hio1 Hio2 Hk1 Hwf2 Hk2 run1 run2. subst run1 run2.
  destruct (log_results_unknown self name1 results1 io1 w Hio1 Hk1)
    as (key & _ & _ & Hrun1).
  rewrite Hrun1. cbn [fst snd]. rewrite Hfresh, (fresh_no_content self w Hfresh).
  rewrite append_empty_l.
  rewrite (log_results_known self name2 results2 io2 _ Hio2 Hwf2 Hk2). cbn [fst snd].
  assert (fresh self (put_file (csv_path self) header_text w) = false) as Hnot.
  { rewrite <- (append_empty_r header_text) at 1. apply fresh_after_header. }
  rewrite Hnot. unfold log_content. rewrite !files_put_file. cbn [default].
  rewrite append_empty_l. repeat split. now exists key.
Qed.

Lemma header_survives_key_error_witness :
  let run1 := log_results demo_system (PyStr "Avellaneda") stray_results
                (io_at "2025-09-01T08:00:00") empty_world in
  let run2 := log_results demo_system (PyStr "Capili") partial_results
                (io_at "2025-09-01T08:00:01") run1.2 in
  log_content demo_system run2.2
  = header_text
    +:+ data_text (PyStr "Capili") partial_results (io_at "2025-09-01T08:00:01").
Proof.
  refine (proj2 (proj2 (proj2 (header_survives_key_error demo_system empty_world
            (PyStr "Avellaneda") (PyStr "Capili") stray_results partial_results
            (io_at "2025-09-01T08:00:00") (io_at "2025-09-01T08:00:01")
            _ _ _ _ _ _)))).
  - reflexivity.
  - split; reflexivity.
  - split; reflexivity.
  - intros Hk. apply (bool_decide_pack _) in Hk. exact Hk.
  - apply (bool_decide_unpack _). reflexivity.
  - apply (bool_decide_unpack _). reflexivity.
Defined.

(** ** From the evaluator to the logger *)

Lemma evaluation_loggable (self : ExpertSystem) (student : Student) :
  Dict.wf (evaluation self student) ∧ known_keys (evaluation self student).
Proof.
  pose proof (until_fault_keys_prefix (rule_calls self student)) as [rest Hrest].
  rewrite rule_calls_keys in Hrest. fold (evaluation self student) in Hrest.
  pose proof rule_order_NoDup as Hnd. rewrite Hrest in Hnd.
  apply NoDup_app in Hnd as (Hnd & _ & _). split; [exact Hnd|].
  unfold known_keys. apply Forall_forall. intros key Hkey.
  rewrite Hrest. apply elem_of_app. now left.
Qed.

Lemma evaluate_student_files (self : ExpertSystem) (student : Student) (w : world) :
  (evaluate_student self student w).1 = Ok (evaluation self student)
  ∧ files (evaluate_student self student w).2 = files w.
Proof.
  rewrite evaluate_student_until_fault. split; [reflexivity|].
  cbn [snd]. now destruct (until_fault (rule_calls self student)).2.
Qed.

Lemma log_results_returns (self : ExpertSystem) (student_name : pyval)
    (results : Dict.t outcome) (io : io_env) (w : world) :
  Dict.wf results → known_keys results →
  (log_results self student_name results io w).1 = Ok tt.
Proof.
  intros Hwf Hk.
  destruct (open_error io) as [msg|] eqn:Hopen.
  { now rewrite (log_results_open_fails _ _ _ _ _ msg Hopen). }
  destruct (close_error io) as [msg|] eqn:Hclose.
  { now rewrite (log_results_close_fails _ _ _ _ _ msg Hopen Hclose). }
  now rewrite (log_results_known _ _ _ _ _ (conj Hopen Hclose) Hwf Hk).
Qed.

Lemma log_content_files (self : ExpertSystem) (w w' : world) :
  files w' = files w →
  log_content self w' = log_content self w ∧ fresh self w' = fresh self w.
Proof. intros H. unfold log_content, fresh. now rewrite H. Qed.

(** X12. What [evaluate_student] returns can always be logged: for every
    student, faulting or not, [log_results] on the returned mapping returns
    normally, under any I/O. When the I/O works it appends the student's row,
    after the header if the file was absent or empty. *)
Theorem evaluate_then_log (self : ExpertSystem) (student : Student) (io : io_env)
    (w : world) :
  ∃ results w1,
    evaluate_student self student w = (Ok results, w1)
    ∧ (log_results self (name student) results io w1).1 = Ok tt
    ∧ (io_ok io →
       log_content self (log_results self (name student) results io w1).2
       = log_content self w +:+ (if fresh self w then header_text else "")
         +:+ data_text (name student) results io).
Proof.
  destruct (evaluate_student_files self student w) as [Hres Hfiles].
  destruct (evaluate_student self student w) as [r w1]. cbn [fst snd] in *. subst r.
  destruct (evaluation_loggable self student) as [Hwf Hk].
  destruct (log_content_files self w w1 Hfiles) as [Hc Hf].
  exists (evaluation self student), w1. split; [reflexivity|]. split.
  - now apply log_results_returns.
  - intros Hio. rewrite (log_results_known _ _ _ _ _ Hio Hwf Hk). cbn [snd].
    unfold log_content at 1. now rewrite files_put_file, Hc, Hf.
Qed.

Lemma evaluate_then_log_witness :
  ∃ results w1,
    evaluate_student demo_system no_base_score empty_world = (Ok results, w1)
    ∧ log_content demo_system
        (log_results demo_system (name no_base_score) results
           (io_at "2025-09-01T08:00:00") w1).2
      = header_text
        +:+ data_text (name no_base_score) results (io_at "2025-09-01T08:00:00").
Proof.
  destruct (evaluate_then_log demo_system no_base_score (io_at "2025-09-01T08:00:00")
              empty_world) as (results & w1 & Heval & _ & Hlog).
  exists results, w1. split; [exact Heval|].
  rewrite Hlog; [reflexivity | split; reflexivity].
Defined.

(** ** The driver *)

Lemma append_assoc_s (a b c : string) : (a +:+ b) +:+ c = a +:+ b +:+ c.
Proof.
  induction a as [|ch a IH]; [reflexivity|].
  change (String ch (a +:+ b) +:+ c = String ch (a +:+ b +:+ c)).
  change (String ch ((a +:+ b) +:+ c) = String ch (a +:+ b +:+ c)). now rewrite IH.
Qed.

Lemma print_results_run (items : Dict.t outcome) (w : world) :
  print_results items w
  = (Ok tt, {| stdout := stdout w ++ (report_line <$> items); files := files w |}).
Proof.
  revert w. induction items as [|item items IH]; intros w.
  - cbn [print_results fmap list_fmap]. rewrite app_nil_r. now destruct w.
  - cbn [print_results]. unfold mbind, M_bind, print, modify. rewrite IH.
    cbn [put_line stdout files fmap list_fmap]. now rewrite <- app_assoc.
Qed.

(** One turn of the loop: evaluate, log, report. *)
Lemma demo_student_run (system : ExpertSystem) (student : Student) (io : io_env)
    (w : world) :
  let w1 := (evaluate_student system student w).2 in
  let w2 := (log_results system (name student) (evaluation system student) io w1).2 in
  demo_student system student io w
  = (Ok tt,
     {| stdout := stdout w2
                  ++ (String Csv.lf "Student: " +:+ py_str (name student))
                     :: (report_line <$> evaluation system student);
        files := files w2 |}).
Proof.
  intros w1 w2. subst w1 w2. unfold demo_student. unfold mbind at 1. unfold M_bind at 1.
  destruct (evaluate_student_files system student w) as [Hres _].
  destruct (evaluate_student system student w) as [r w1]. cbn [fst snd] in *. subst r.
  destruct (evaluation_loggable system student) as [Hwf Hk].
  pose proof (log_results_returns system (name student) _ io w1 Hwf Hk) as Hlog.
  unfold mbind at 1. unfold M_bind at 1.
  destruct (log_results system (name student) (evaluation system student) io w1)
    as [r w2]. cbn [fst snd] in *. subst r.
  unfold mbind, M_bind, print, modify. rewrite print_results_run.
  cbn [put_line stdout files]. now rewrite <- app_assoc.
Qed.

Lemma demo_student_log (system : ExpertSystem) (student : Student) (io : io_env)
    (w : world) :
  io_ok io →
  log_content system (demo_student system student io w).2
  = log_content system w +:+ (if fresh system w then header_text else "")
    +:+ data_text (name student) (evaluation system student) io.
Proof.
  intros Hio. rewrite demo_student_run. cbn [snd].
  destruct (evaluate_student_files system student w) as [_ Hfiles].
  destruct (log_content_files system w _ Hfiles) as [Hc Hf].
  destruct (evaluation_loggable system student) as [Hwf Hk].
  rewrite (log_results_known _ _ _ _ _ Hio Hwf Hk). cbn [snd].
  unfold log_content at 1. cbn [files]. now rewrite files_put_file, Hc, Hf.
Qed.

Lemma data_text_not_empty (student_name : pyval) (results : Dict.t outcome)
    (io : io_env) (s : string) :
  s +:+ data_text student_name results io ≠ "".
Proof.
  unfold data_text, Csv.line. intros H.
  assert (∀ a b : string, a +:+ b = "" → b = "") as Hb.
  { intros a b. destruct a; [trivial|discriminate]. }
  apply Hb, Hb in H. discriminate H.
Qed.

Lemma fresh_content (self : ExpertSystem) (w : world) :
  fresh self w = bool_decide (log_content self w = "").
Proof.
  unfold fresh, log_content. destruct (files w !! csv_path self) as [c|];
    cbn [default from_option id].
  - apply bool_decide_ext. split.
    + intros [H|H]; [discriminate H | now injection H].
    + intros ->. now right.
  - rewrite !bool_decide_eq_true_2; auto.
Qed.

Lemma demo_students_returns (system : ExpertSystem) (students : list Student)
    (io : nat → io_env) (i : nat) (w : world) :
  (demo_students system students io i w).1 = Ok tt.
Proof.
  revert i w. induction students as [|student rest IH]; intros i w; [reflexivity|].
  cbn [demo_students]. unfold mbind, M_bind. rewrite demo_student_run. apply IH.
Qed.

Lemma demo_students_keeps_stdout (system : ExpertSystem) (students : list Student)
    (io : nat → io_env) (i : nat) (w : world) (line : string) :
  line ∈ stdout w → line ∈ stdout (demo_students system students io i w).2.
Proof.
  revert i w. induction students as [|student rest IH]; intros i w Hin; [exact Hin|].
  cbn [demo_students]. unfold mbind, M_bind. rewrite demo_student_run. apply IH.
  cbn [stdout]. apply elem_of_app. left.
  assert (∀ w0 res io0, line ∈ stdout w0 →
            line ∈ stdout (log_results system (name student) res io0 w0).2) as Hlog.
  { intros w0 res io0 Hw0. unfold log_results. unfold mbind, M_bind.
    rewrite need_header_fresh. unfold try_except, with_open_append.
    destruct (open_error io0).
    - cbn [is_OSError print modify snd put_line stdout]. apply elem_of_app. now left.
    - pose proof (block_keeps_world (name student) res io0 (fresh system w0)
                    ("", put_file (csv_path system)
                           (default "" (files w0 !! csv_path system)) w0)) as Hw.
      destruct (log_results_block _ _ _ _ _) as [r [written w2]].
      cbn [fst snd] in Hw. subst w2.
      destruct (close_error io0).
      + cbn [is_OSError print modify snd put_line stdout put_file].
        apply elem_of_app. now left.
      + destruct r as [[]|e]; [exact Hw0|].
        destruct (is_OSError e); [|exact Hw0].
        cbn [print modify snd put_line stdout put_file]. apply elem_of_app. now left. }
  apply Hlog. rewrite evaluate_student_until_fault. cbn [snd].
  destruct (until_fault (rule_calls system student)).2; [|exact Hin].
  cbn [put_line stdout]. apply elem_of_app. now left.
Qed.

(** X13. The console report of one turn of the loop of [demo()]. The lines
    come in this order: the diagnostic of the evaluation if a rule faulted,
    the diagnostic of the logger if [open()] was refused, the [Student:]
    line, then one line per rule that was evaluated, in the order of the
    rules. A student whose evaluation faulted is still reported, with the
    lines of the rules before the fault only. *)
Theorem demo_student_console (system : ExpertSystem) (student : Student)
    (io : io_env) (w : world) :
  let diagnostic :=
    match (until_fault (rule_calls system student)).2 with
    | Some e => [evaluation_diagnostic student e]
    | None => []
    end in
  let report :=
    (String Csv.lf "Student: " +:+ py_str (name student))
    :: (report_line <$> evaluation system student) in
  (io_ok io →
   stdout (demo_student system student io w).2
   = (stdout w ++ diagnostic ++ report)%list)
  ∧ (∀ msg, open_error io = Some msg →
     stdout (demo_student system student io w).2
     = (stdout w ++ diagnostic ++ ("Error writing to CSV: " +:+ msg) :: report)%list).
Proof.
  intros diagnostic report.
  assert (stdout (evaluate_student system student w).2 = (stdout w ++ diagnostic)%list)
    as Heval.
  { rewrite evaluate_student_until_fault. cbn [snd]. subst diagnostic.
    destruct (until_fault (rule_calls system student)).2.
    - reflexivity.
    - now rewrite app_nil_r. }
  split.
  - intros Hio. rewrite demo_student_run. cbn [snd stdout].
    destruct (evaluation_loggable system student) as [Hwf Hk].
    rewrite (log_results_known _ _ _ _ _ Hio Hwf Hk). cbn [snd put_file stdout].
    rewrite Heval. now rewrite <- app_assoc.
  - intros msg Hopen. rewrite demo_student_run. cbn [snd stdout].
    rewrite (log_results_open_fails _ _ _ _ _ msg Hopen). cbn [snd put_line stdout].
    rewrite Heval. now rewrite <- !app_assoc.
Qed.

Lemma demo_student_console_witness :
  stdout (demo_student demo_system no_attendance (io_at "2025-09-01T08:00:00")
            empty_world).2
  = [evaluation_diagnostic no_attendance
       (unsupported "<=" "int" "NoneType");
     String Csv.lf "Student: Avellaneda"].
Proof.
  refine (proj1 (demo_student_console demo_system no_attendance
                   (io_at "2025-09-01T08:00:00") empty_world) _).
  split; reflexivity.
Defined.

(** X14. The loop of [demo()], over any list of students and under any
    I/O: it never raises, the console gets the [Student:] line of every
    student, and when every [open()] is refused the files are left as they
    were. *)
Theorem demo_students_never_stops (system : ExpertSystem) (students : list Student)
    (io : nat → io_env) (i : nat) (w : world) :
  (demo_students system students io i w).1 = Ok tt
  ∧ (∀ student, student ∈ students →
       (String Csv.lf "Student: " +:+ py_str (name student))
       ∈ stdout (demo_students system students io i w).2)
  ∧ ((∀ j, open_error (io j) ≠ None) →
     files (demo_students system students io i w).2 = files w).
Proof.
  split; [apply demo_students_returns|]. split.
  - revert i w. induction students as [|student rest IH]; intros i w s Hs.
    { by apply elem_of_nil in Hs. }
    cbn [demo_students]. unfold mbind, M_bind. rewrite demo_student_run.
    apply elem_of_cons in Hs as [->|Hs]; [|now apply IH].
    apply demo_students_keeps_stdout. cbn [stdout].
    apply elem_of_app. right. apply list_elem_of_here.
  - intros Hfail. revert i w. induction students as [|student rest IH]; intros i w.
    { reflexivity. }
    cbn [demo_students]. unfold mbind, M_bind. rewrite demo_student_run, IH.
    cbn [files]. destruct (open_error (io i)) as [msg|] eqn:Hopen.
    + rewrite (log_results_open_fails _ _ _ _ _ msg Hopen). cbn [snd put_line files].
      apply evaluate_student_files.
    + now destruct (Hfail i).
Qed.

Lemma demo_students_never_stops_witness :
  files (demo_students demo_system [no_attendance; Capili; no_base_score]
           (λ _, denied_io) 0
           (put_file "logic_results.csv" "earlier run" empty_world)).2
  = files (put_file "logic_results.csv" "earlier run" empty_world).
Proof.
  refine (proj2 (proj2 (demo_students_never_stops demo_system
                          [no_attendance; Capili; no_base_score] (λ _, denied_io) 0
                          (put_file "logic_results.csv" "earlier run" empty_world))) _).
  intros j. discriminate.
Defined.

(** What the loop leaves in the log when the I/O works. *)
Lemma demo_students_log (system : ExpertSystem) (students : list Student)
    (io : nat → io_env) (i : nat) (w : world) :
  (∀ j, io_ok (io j)) →
  log_content system (demo_students system students io i w).2
  = log_content system w
    +:+ (if fresh system w && negb (bool_decide (students = [])) then header_text else "")
    +:+ student_rows system students io i.
Proof.
  intros Hio. revert i w. induction students as [|student rest IH]; intros i w.
  - cbn [demo_students student_rows mret M_ret snd]. rewrite andb_false_r.
    now rewrite !append_empty_r.
  - cbn [demo_students student_rows]. unfold mbind, M_bind.
    pose proof (demo_student_log system student (io i) w (Hio i)) as Hlog.
    pose proof (f_equal fst (demo_student_run system student (io i) w)) as Hret.
    destruct (demo_student system student (io i) w) as [r w1].
    cbn [fst snd] in Hlog, Hret. subst r. rewrite IH, fresh_content, Hlog.
    rewrite (bool_decide_eq_false_2 (_ = "")).
    2:{ rewrite <- append_assoc_s. apply data_text_not_empty. }
    cbn [andb]. rewrite append_empty_l, andb_true_r.
    now rewrite !append_assoc_s.
Qed.

Lemma demo_run (home : string) (io : nat → io_env) (w : world) :
  let system := ExpertSystem_init (CSV_PATH home) in
  demo home io w
  = (Ok tt,
     put_line (String Csv.lf "Results logged to: " +:+ CSV_PATH home)
       (demo_students system test_students io 0
          (put_line ("CSV output: " +:+ CSV_PATH home)
             (put_line "=== Mini Expert System — Demo Run ===" w))).2).
Proof.
  intros system. unfold demo. fold system. unfold mbind, M_bind, print, modify.
  pose proof (demo_students_returns system test_students io 0
                (put_line ("CSV output: " +:+ csv_path system)
                   (put_line "=== Mini Expert System — Demo Run ===" w))) as Hret.
  destruct (demo_students system test_students io 0 _) as [r w1].
  cbn [fst] in Hret. now subst r.
Qed.

(** [demo()] returns, and leaves in the log what its loop leaves there: the
    banner and the closing line go to the console only. *)
Lemma demo_log_of_loop (home : string) (io : nat → io_env) (w : world) :
  let system := ExpertSystem_init (CSV_PATH home) in
  (demo home io w).1 = Ok tt
  ∧ ∃ w', files w' = files w
      ∧ log_content system (demo home io w).2
        = log_content system (demo_students system test_students io 0 w').2.
Proof.
  intros system. pose proof (demo_run home io w) as Hrun. cbv zeta in Hrun.
  fold system in Hrun. rewrite Hrun. split; [reflexivity|].
  exists (put_line ("CSV output: " +:+ CSV_PATH home)
            (put_line "=== Mini Expert System — Demo Run ===" w)).
  split; [reflexivity|]. cbn [snd]. now apply log_content_files.
Qed.

(** X15. [demo()] returns whatever happens to the I/O, and it appends: when
    the I/O works, the log file gains the rows of the three students after
    its old content, with the header in front only if the file was absent or
    empty. *)
Theorem demo_appends (home : string) (io : nat → io_env) (w : world) :
  let system := ExpertSystem_init (CSV_PATH home) in
  (demo home io w).1 = Ok tt
  ∧ ((∀ j, io_ok (io j)) →
     log_content system (demo home io w).2
     = log_content system w +:+ (if fresh system w then header_text else "")
       +:+ student_rows system test_students io 0).
Proof.
  intros system.
  destruct (demo_log_of_loop home io w) as [Hret (w' & Hfiles & Hlog)].
  fold system in Hlog. split; [exact Hret|]. intros Hio.
  rewrite Hlog, (demo_students_log system test_students io 0 w' Hio).
  destruct (log_content_files system w w' Hfiles) as [-> ->].
  now rewrite andb_true_r.
Qed.

Lemma demo_appends_witness :
  log_content (ExpertSystem_init (CSV_PATH "/home/student"))
    (demo "/home/student" (λ _, io_at "2025-09-01T08:00:00")
       (put_file (CSV_PATH "/home/student") "earlier run" empty_world)).2
  = "earlier run"
    +:+ student_rows (ExpertSystem_init (CSV_PATH "/home/student")) test_students
          (λ _, io_at "2025-09-01T08:00:00") 0.
Proof.
  refine (proj2 (demo_appends "/home/student" (λ _, io_at "2025-09-01T08:00:00")
                   (put_file (CSV_PATH "/home/student") "earlier run" empty_world)) _).
  intros j. split; reflexivity.
Defined.

Lemma main_removes_first (env : run_env) (w : world) :
  remove_error env = None →
  main env w
  = demo (home env) (log_io env)
      {| stdout := stdout w; files := delete (CSV_PATH (home env)) (files w) |}.
Proof.
  intros Hrm. unfold main, path_exists, os_remove. rewrite Hrm. unfold mbind, M_bind.
  destruct (files w !! CSV_PATH (home env)) as [old|] eqn:Hfile.
  - rewrite (bool_decide_eq_true_2 (is_Some (Some old))) by (now exists old).
    now rewrite Hfile.
  - rewrite (bool_decide_eq_false_2 (is_Some None)) by (intros [? ?]; congruence).
    cbn [mret M_ret]. rewrite (delete_id _ _ Hfile). now destruct w.
Qed.

(** X16. The program starts clean: when [os.remove] is not refused and the
    I/O works, the log file after [main] is the header and the rows of the
    three students, whatever it held before. *)
Theorem main_clean_start (env : run_env) (w : world) :
  remove_error env = None → (∀ j, io_ok (log_io env j)) →
  let system := ExpertSystem_init (CSV_PATH (home env)) in
  (main env w).1 = Ok tt
  ∧ log_content system (main env w).2
    = header_text +:+ student_rows system test_students (log_io env) 0.
Proof.
  intros Hrm Hio system. rewrite (main_removes_first env w Hrm).
  set (w0 := {| stdout := stdout w; files := delete (CSV_PATH (home env)) (files w) |}).
  assert (log_content system w0 = "") as Hw0.
  { unfold log_content. cbn [files csv_path system ExpertSystem_init w0].
    now rewrite lookup_delete_eq. }
  destruct (demo_log_of_loop (home env) (log_io env) w0)
    as [Hret (w' & Hfiles & Hlog)].
  split; [exact Hret|]. fold system in Hlog.
  rewrite Hlog, (demo_students_log system test_students (log_io env) 0 w' Hio).
  destruct (log_content_files system w0 w' Hfiles) as [-> ->].
  rewrite fresh_content, Hw0.
  rewrite bool_decide_eq_true_2 by reflexivity. now rewrite append_empty_l.
Qed.

Lemma main_clean_start_witness :
  log_content (ExpertSystem_init (CSV_PATH "/home/student"))
    (main working_env (put_file (CSV_PATH "/home/student") "earlier run" empty_world)).2
  = header_text
    +:+ student_rows (ExpertSystem_init (CSV_PATH "/home/student")) test_students
          (λ _, io_at "2025-09-01T08:00:00") 0.
Proof.
  refine (proj2 (main_clean_start working_env
                   (put_file (CSV_PATH "/home/student") "earlier run" empty_world) _ _)).
  - reflexivity.
  - intros j. split; reflexivity.
Defined.
